(** * Stereo triangulation engine: [distance_calculation.py]

    A shallow embedding of the class [DistanceCalculation] and of its four
    operations ([__init__], [update_pixel_to_angle_ratio],
    [calculate_distance], [calculate_distance_using_disparity]), and of the
    parts of [handle_selected_images] in [object_detection_app.py] that
    build the records handed to the engine and report its results.

    Modelling choices.
    - Python numbers are idealised as real numbers: an [int] is injected
      with [IZR], a [float] is an element of [R], and [sin], [sqrt], [tan]
      and [radians] are the exact functions.  Rounding, infinities and NaN
      are not represented there.
    - Where rounding decides which branch is taken, the numeric part of
      [calculate_distance] is embedded a second time over an abstract
      [arithmetic] ([calculate_distance_in]), with two instances: the real
      numbers, on which it coincides with the first embedding, and
      [binary64], the IEEE 754 double precision of Python's [float], whose
      [math.sin] and [**] are those of the C library and enter as
      parameters.  Statements proved over the reals that assert a strict
      inequality or a boundary carry bounds that keep their inputs away
      from the places where rounding moves a guard.
    - An observation record is a Python [dict] with string keys, modelled
      as a [gmap string pyval]; a missing key raises [KeyError] and an
      operand of the wrong type raises [TypeError], as in Python.
    - A method is a computation over the object [self] that either returns
      or raises: the monad [M] threads the object and the outcome.
    - The rendering of a number inside an f-string is a parameter
      ([format_float]); the rest of every message is the literal text of
      the source. *)

From Stdlib Require Import Floats.
From Stdlib Require Import Reals Lra Psatz ZArith.
From stdpp Require Import base option gmap strings pretty.

Open Scope R_scope.

(** ** Values, exceptions, outcomes *)

Inductive pyval : Type :=
| PyInt (z : Z)
| PyFloat (x : R)
| PyNone
| PyStr (s : string).

Inductive exn : Type :=
| KeyError (key : string)
| TypeError (msg : string)
| ZeroDivisionError.

Inductive outcome (A : Type) : Type :=
| Ret (a : A)
| Raise (e : exn).
Arguments Ret {A} a.
Arguments Raise {A} e.

(** The object: the four attributes assigned in [__init__]. *)
Record DistanceCalculation : Type := mkDistanceCalculation {
  fov_horizontal : R;
  cameras_distance : R;
  pixel_to_angle_ratio_x : option R;
  focal_length : R
}.

(** The dictionary returned by both distance methods. *)
Record result : Type := mkResult {
  distance : option R;
  details : string
}.

(** ** The method monad: state [self] and an outcome *)

Definition M (A : Type) : Type :=
  DistanceCalculation -> outcome A * DistanceCalculation.

Definition ret {A} (a : A) : M A := fun self => (Ret a, self).
Definition raise {A} (e : exn) : M A := fun self => (Raise e, self).
Definition bind {A B} (m : M A) (k : A -> M B) : M B :=
  fun self =>
    match m self with
    | (Ret a, self') => k a self'
    | (Raise e, self') => (Raise e, self')
    end.
Definition get_self : M DistanceCalculation := fun self => (Ret self, self).
Definition put_self (self' : DistanceCalculation) : M unit :=
  fun _ => (Ret tt, self').

(** [try: m except Exception as e: h e] *)
Definition try_except {A} (m : M A) (h : exn -> M A) : M A :=
  fun self =>
    match m self with
    | (Ret a, self') => (Ret a, self')
    | (Raise e, self') => h e self'
    end.

#[global] Instance M_ret : MRet M := @ret.
#[global] Instance M_bind : MBind M := fun A B k m => bind m k.

(** ** Python primitives *)

Definition Rltb (x y : R) : bool := if Rlt_dec x y then true else false.
Definition Rleb (x y : R) : bool := if Rle_dec x y then true else false.
Definition Reqb (x y : R) : bool := if Req_dec_T x y then true else false.

Definition type_name (v : pyval) : string :=
  match v with
  | PyInt _ => "int"
  | PyFloat _ => "float"
  | PyNone => "NoneType"
  | PyStr _ => "str"
  end.

(** The numeric value of an [int] or a [float]. *)
Definition num_of (v : pyval) : option R :=
  match v with
  | PyInt z => Some (IZR z)
  | PyFloat x => Some x
  | PyNone | PyStr _ => None
  end.

(** [d[k]] *)
Definition getitem (d : gmap string pyval) (k : string) : M pyval :=
  match d !! k with
  | Some v => ret v
  | None => raise (KeyError k)
  end.

(** [v < 0] and [v > 0], the right operand being the [int] literal [0]. *)
Definition py_lt0 (v : pyval) : M bool :=
  match num_of v with
  | Some x => ret (Rltb x 0)
  | None =>
      raise (TypeError ("'<' not supported between instances of '"
                        +:+ type_name v +:+ "' and 'int'"))
  end.

Definition py_gt0 (v : pyval) : M bool :=
  match num_of v with
  | Some x => ret (Rltb 0 x)
  | None =>
      raise (TypeError ("'>' not supported between instances of '"
                        +:+ type_name v +:+ "' and 'int'"))
  end.

(** [a and b] on comparisons: [b] is evaluated only when [a] is true. *)
Definition py_and (a b : M bool) : M bool :=
  x ← a; if (x : bool) then b else ret false.

(** [abs(v)] *)
Definition py_abs (v : pyval) : M R :=
  match num_of v with
  | Some x => ret (Rabs x)
  | None =>
      raise (TypeError ("bad operand type for abs(): '"
                        +:+ type_name v +:+ "'"))
  end.

(** [a - b] *)
Definition py_sub (a b : pyval) : M R :=
  match num_of a, num_of b with
  | Some x, Some y => ret (x - y)
  | _, _ =>
      raise (TypeError ("unsupported operand type(s) for -: '"
                        +:+ type_name a +:+ "' and '" +:+ type_name b +:+ "'"))
  end.

(** [math.radians] and [np.radians]: multiplication by pi/180. *)
Definition radians (x : R) : R := x * (PI / 180).

(** [str(e)] for the exceptions of the model; a [KeyError] prints the
    [repr] of its key. *)
Definition str_exn (e : exn) : string :=
  match e with
  | KeyError k => "'" +:+ k +:+ "'"
  | TypeError msg => msg
  | ZeroDivisionError => "division by zero"
  end.

(** ** The class [DistanceCalculation] *)

Section DistanceCalculation.

(** How an f-string renders a [float]: not fixed by the source. *)
Variable format_float : R -> string.

(** [f"{v}"] *)
Definition format_value (v : pyval) : string :=
  match v with
  | PyInt z => pretty z
  | PyFloat x => format_float x
  | PyNone => "None"
  | PyStr s => s
  end.

(** [__init__] (lines 7-20).  [np.tan] and [np.radians] are the real
    functions; where the tangent vanishes numpy yields an infinity, which
    the model does not represent. *)
Definition init (fov_horizontal cameras_distance : R) : DistanceCalculation :=
  {| fov_horizontal := fov_horizontal;
     cameras_distance := cameras_distance;
     pixel_to_angle_ratio_x := None;
     focal_length := 640 / (2 * tan (radians (fov_horizontal / 2))) |}.

(** [update_pixel_to_angle_ratio] (lines 22-28): the division raises on a
    zero width, before the attribute is assigned. *)
Definition update_pixel_to_angle_ratio (res_width : Z) : M unit :=
  self ← get_self;
  if decide (res_width = 0%Z) then raise ZeroDivisionError
  else
    put_self {| fov_horizontal := fov_horizontal self;
                cameras_distance := cameras_distance self;
                pixel_to_angle_ratio_x :=
                  Some (fov_horizontal self / IZR res_width);
                focal_length := focal_length self |}.

(** Lines 49-62: the case and the two internal angles, or [None] for the
    [else] branch. *)
Definition classify (angle_of_view_left_x angle_of_view_right_x : pyval)
  : M (option (string * R * R)) :=
  c1 ← py_and (py_lt0 angle_of_view_left_x) (py_gt0 angle_of_view_right_x);
  if (c1 : bool) then
    al ← py_abs angle_of_view_left_x;
    ar ← py_abs angle_of_view_right_x;
    mret (Some ("between the cameras", 90 - al, 90 - ar))
  else
    c2 ← py_and (py_gt0 angle_of_view_left_x) (py_gt0 angle_of_view_right_x);
    if (c2 : bool) then
      al ← py_abs angle_of_view_left_x;
      ar ← py_abs angle_of_view_right_x;
      mret (Some ("to the left of the left camera", 90 + al, 90 - ar))
    else
      c3 ← py_and (py_lt0 angle_of_view_left_x) (py_lt0 angle_of_view_right_x);
      if (c3 : bool) then
        al ← py_abs angle_of_view_left_x;
        ar ← py_abs angle_of_view_right_x;
        mret (Some ("to the right of the right camera", 90 - al, 90 + ar))
      else mret None.

(** Line 69. *)
Definition internal_angle_obj (internal_angle_left_x internal_angle_right_x : R)
  : R :=
  180 - (internal_angle_left_x + internal_angle_right_x).

(** Lines 83, 90 and 92. *)
Definition denominator (internal_angle_obj_rad : R) : R :=
  sin internal_angle_obj_rad ^ 2.

Definition numerator (internal_angle_left_x_rad internal_angle_right_x_rad : R)
  : R :=
  sin internal_angle_left_x_rad ^ 2 + sin internal_angle_right_x_rad ^ 2.

Definition value_inside_sqrt (internal_angle_left_x internal_angle_right_x : R)
  : R :=
  2 * (numerator (radians internal_angle_left_x)
                 (radians internal_angle_right_x)
       / denominator (radians (internal_angle_obj internal_angle_left_x
                                                  internal_angle_right_x)))
  - 1.

(** Lines 68-106: from the classified case to the result. *)
Definition triangulate (case : string)
    (internal_angle_left_x internal_angle_right_x : R) : M result :=
  let internal_angle_obj :=
    internal_angle_obj internal_angle_left_x internal_angle_right_x in
  if Rleb internal_angle_obj 0 then
    mret {| distance := None;
            details := "Invalid internal angles leading to degenerate triangle." |}
  else
    let internal_angle_right_x_rad := radians internal_angle_right_x in
    let internal_angle_left_x_rad := radians internal_angle_left_x in
    let internal_angle_obj_rad := radians internal_angle_obj in
    let denominator := denominator internal_angle_obj_rad in
    if Reqb denominator 0 then
      mret {| distance := None;
              details := "Division by zero encountered in distance calculation." |}
    else
      let numerator :=
        numerator internal_angle_left_x_rad internal_angle_right_x_rad in
      let value_inside_sqrt := 2 * (numerator / denominator) - 1 in
      if Rltb value_inside_sqrt 0 then
        mret {| distance := None;
                details := "Invalid value inside square root in distance calculation." |}
      else
        self ← get_self;
        let distance_to_object_x :=
          (cameras_distance self / 2) * sqrt value_inside_sqrt in
        mret {| distance := Some distance_to_object_x;
                details := "Object is " +:+ case +:+ "." |}.

(** Lines 40-106: the body of the [try]. *)
Definition calculate_distance_body (left_image right_image : gmap string pyval)
  : M result :=
  img_center_left_x ← getitem left_image "img_center_x";
  obj_center_left_x ← getitem left_image "obj_center_x";
  angle_of_view_left_x ← getitem left_image "angle_of_view_x";
  img_center_right_x ← getitem right_image "img_center_x";
  obj_center_right_x ← getitem right_image "obj_center_x";
  angle_of_view_right_x ← getitem right_image "angle_of_view_x";
  c ← classify angle_of_view_left_x angle_of_view_right_x;
  match c with
  | None =>
      mret {| distance := None;
              details := "Unknown case based on angles: left="
                         +:+ format_value angle_of_view_left_x
                         +:+ ", right="
                         +:+ format_value angle_of_view_right_x |}
  | Some (case, internal_angle_left_x, internal_angle_right_x) =>
      triangulate case internal_angle_left_x internal_angle_right_x
  end.

(** [calculate_distance] (lines 30-112). *)
Definition calculate_distance (left_image right_image : gmap string pyval)
  : M result :=
  try_except (calculate_distance_body left_image right_image)
    (fun e =>
       mret {| distance := None;
               details := "Error during distance calculation: " +:+ str_exn e |}).

(** Lines 121-140: the body of the [try]. *)
Definition calculate_distance_using_disparity_body
    (left_image right_image : gmap string pyval) : M result :=
  obj_center_left_x ← getitem left_image "obj_center_x";
  obj_center_right_x ← getitem right_image "obj_center_x";
  disparity ← py_sub obj_center_left_x obj_center_right_x;
  if Reqb disparity 0 then
    mret {| distance := None;
            details := "Disparity is zero, unable to calculate distance." |}
  else
    self ← get_self;
    let distance_to_object_disparity :=
      (focal_length self * cameras_distance self) / disparity in
    mret {| distance := Some distance_to_object_disparity;
            details := "Distance calculated using disparity and focal length." |}.

(** [calculate_distance_using_disparity] (lines 115-146). *)
Definition calculate_distance_using_disparity
    (left_image right_image : gmap string pyval) : M result :=
  try_except (calculate_distance_using_disparity_body left_image right_image)
    (fun e =>
       mret {| distance := None;
               details := "Error calculating distance using disparity: "
                          +:+ str_exn e |}).

End DistanceCalculation.

(** ** Well-formed inputs *)

(** A record with the three keys read by [calculate_distance], whose angle
    of view is the value [angle]. *)
Definition observation (d : gmap string pyval) (angle : pyval) : Prop :=
  is_Some (d !! "img_center_x") /\
  is_Some (d !! "obj_center_x") /\
  d !! "angle_of_view_x" = Some angle.

(** The record built by the application for one image. *)
Definition make_observation (img_center_x obj_center_x : Z) (angle : R)
  : gmap string pyval :=
  <["img_center_x" := PyInt img_center_x]>
    (<["obj_center_x" := PyInt obj_center_x]>
       (<["angle_of_view_x" := PyFloat angle]> ∅)).

(** The state of the object after a method call, whether it returned or
    raised. *)
Inductive call : Type :=
| UpdatePixelToAngleRatio (res_width : Z)
| CalculateDistance (left_image right_image : gmap string pyval)
| CalculateDistanceUsingDisparity (left_image right_image : gmap string pyval).

Definition run_call (format_float : R -> string) (c : call)
    (self : DistanceCalculation) : DistanceCalculation :=
  match c with
  | UpdatePixelToAngleRatio w => snd (update_pixel_to_angle_ratio w self)
  | CalculateDistance l r => snd (calculate_distance format_float l r self)
  | CalculateDistanceUsingDisparity l r =>
      snd (calculate_distance_using_disparity l r self)
  end.

Fixpoint run_calls (format_float : R -> string) (cs : list call)
    (self : DistanceCalculation) : DistanceCalculation :=
  match cs with
  | [] => self
  | c :: cs' => run_calls format_float cs' (run_call format_float c self)
  end.

(** The reference scenario: a 55 degree field of view, cameras 0.265 m
    apart, the object seen at -10 degrees on the left image and at 8
    degrees on the right one (an image 1100 pixels wide). *)
Definition reference_rig : DistanceCalculation := init 55 (265 / 1000).
Definition reference_left : gmap string pyval := make_observation 550 750 (-10).
Definition reference_right : gmap string pyval := make_observation 550 390 8.

(** A rendering of floats for the closed examples. *)
Definition sample_format : R -> string := fun _ => "<float>"%string.

(** A computation that leaves the object as it found it. *)
Definition read_only {A} (m : M A) : Prop :=
  forall self, snd (m self) = self.

(** A computation whose outcome depends on the object through the
    attribute [cameras_distance] alone. *)
Definition baseline_only {A} (m : M A) : Prop :=
  forall self1 self2,
    cameras_distance self1 = cameras_distance self2 ->
    fst (m self1) = fst (m self2).

(** ** The caller: [object_detection_app.py] *)

(** A bounding box as [detect_objects] builds it
    ([object_detection_yolov5.py], lines 55-62): four [int] corners, a
    [float] confidence and an [int] class. *)
Record bounding_box : Type := mkBoundingBox {
  xmin : Z;
  ymin : Z;
  xmax : Z;
  ymax : Z;
  confidence : R;
  class : Z
}.

(** Lines 127 and 131: [(bbox['xmin'] + bbox['xmax']) // 2]. *)
Definition obj_center_x (bbox : bounding_box) : Z :=
  ((xmin bbox + xmax bbox) `div` 2)%Z.

(** Lines 128 and 132: [res[0] // 2]. *)
Definition img_center_x (res_width : Z) : Z := (res_width `div` 2)%Z.

(** Lines 129 and 133:
    [(img_center_x - obj_center_x) * distance_calculator.fov_horizontal / res[0]];
    the true division raises on a zero width. *)
Definition angle_of_view_x (img_center obj_center res_width : Z) : M R :=
  self ← get_self;
  if decide (res_width = 0%Z) then raise ZeroDivisionError
  else mret (IZR (img_center - obj_center) * fov_horizontal self
             / IZR res_width).

(** Lines 127-147 for one image: the centres, the angle and the record
    handed to the engine. *)
Definition image_params (res_width : Z) (bbox : bounding_box)
  : M (gmap string pyval) :=
  let obj_center := obj_center_x bbox in
  let img_center := img_center_x res_width in
  angle ← angle_of_view_x img_center obj_center res_width;
  mret (make_observation img_center obj_center angle).

(** What the handler writes: standard output and the log. *)
Inductive event : Type :=
| Print (s : string)
| LogInfo (s : string)
| LogWarning (s : string)
| LogError (s : string).

(** The line feed of the [print] calls. *)
Definition newline : string := String (Ascii.ascii_of_nat 10) EmptyString.

(** [f"{d:.2f}"] on the [distance] entry of a result: a [float] is
    rendered (by the parameter [format_2f]), [None] rejects the format
    specification. *)
Definition format_distance (format_2f : R -> string) (d : option R)
  : outcome string :=
  match d with
  | Some x => Ret (format_2f x)
  | None =>
      Raise (TypeError "unsupported format string passed to NoneType.__format__")
  end.

(** Lines 185-193: the report of the two estimates. *)
Definition report_distances (format_2f : R -> string)
    (distance_info distance_info_disparity : result) : outcome (list event) :=
  match format_distance format_2f (distance distance_info_disparity) with
  | Raise e => Raise e
  | Ret shown =>
      Ret (Print ("Distance (using disparity): " +:+ shown +:+ " meters")
           :: match distance distance_info with
              | Some d =>
                  [ Print (newline +:+ "Distance to the object: "
                           +:+ format_2f d +:+ " meters ("
                           +:+ details distance_info +:+ ")");
                    LogInfo ("Distance to the object: "
                             +:+ format_2f d +:+ " meters ("
                             +:+ details distance_info +:+ ")") ]
              | None =>
                  [ Print (newline +:+ "Distance to the object: Undefined ("
                           +:+ details distance_info +:+ ")");
                    LogWarning ("Distance to the object: Undefined ("
                                +:+ details distance_info +:+ ")") ]
              end)
  end.

(** Lines 185-202: the report inside the handler's [try], followed by the
    closing lines 198-199, or by the [except] clause of lines 200-202. *)
Definition report_guarded (format_2f : R -> string)
    (distance_info distance_info_disparity : result) : list event :=
  match report_distances format_2f distance_info distance_info_disparity with
  | Ret events =>
      events ++ [ Print (newline +:+ "Processing complete.");
                  LogInfo "Image processing complete." ]
  | Raise e =>
      [ LogError ("Error during image processing: " +:+ str_exn e);
        Print ("Error during image processing: " +:+ str_exn e) ]
  end.

(** The keys [calculate_distance] reads from each record, in reading
    order (lines 40-42 and 44-46). *)
Definition required_keys : list string :=
  ["img_center_x"; "obj_center_x"; "angle_of_view_x"]%string.

(** ** The engine over an arbitrary arithmetic

    The guards of [calculate_distance] (lines 71, 84 and 93) test computed
    values, and which of them fires depends on how the numbers are
    rounded.  The engine is therefore also given for any arithmetic: the
    operations the code applies to its numbers are the fields of a record,
    and exact real arithmetic and binary64 are two instances.  [math.sin]
    is the one operation of lines 49-106 that can raise (on an infinite
    argument): it returns a value or the message of its [ValueError]. *)

Record arithmetic : Type := mkArithmetic {
  num : Type;
  num_of_int : Z -> num;              (* an [int] literal met in a float operation *)
  num_add : num -> num -> num;
  num_sub : num -> num -> num;
  num_mul : num -> num -> num;
  num_div : num -> num -> num;        (* called with a divisor that is not [== 0] *)
  num_abs : num -> num;
  num_pow2 : num -> num;              (* [x ** 2] *)
  num_radians : num -> num;           (* [math.radians] *)
  num_sin : num -> num + string;      (* [math.sin] *)
  num_sqrt : num -> num;              (* [math.sqrt], called past the test of line 93 *)
  num_lt : num -> num -> bool;
  num_le : num -> num -> bool;
  num_eq : num -> num -> bool;
  num_str : num -> string             (* the rendering in an f-string *)
}.

(** The returned dictionary, over the numbers of an arithmetic. *)
Record result_in (a : arithmetic) : Type := mkResultIn {
  distance_in : option (num a);
  details_in : string
}.
Arguments mkResultIn {a} _ _.
Arguments distance_in {a} _.
Arguments details_in {a} _.

Section Engine.

Variable a : arithmetic.

Local Abbreviation int := (num_of_int a).

(** Lines 49-62 on two numbers. *)
Definition classify_in (angle_of_view_left_x angle_of_view_right_x : num a)
  : option (string * num a * num a) :=
  if num_lt a angle_of_view_left_x (int 0)
     && num_lt a (int 0) angle_of_view_right_x
  then Some ("between the cameras"%string,
             num_sub a (int 90) (num_abs a angle_of_view_left_x),
             num_sub a (int 90) (num_abs a angle_of_view_right_x))
  else if num_lt a (int 0) angle_of_view_left_x
          && num_lt a (int 0) angle_of_view_right_x
  then Some ("to the left of the left camera"%string,
             num_add a (int 90) (num_abs a angle_of_view_left_x),
             num_sub a (int 90) (num_abs a angle_of_view_right_x))
  else if num_lt a angle_of_view_left_x (int 0)
          && num_lt a angle_of_view_right_x (int 0)
  then Some ("to the right of the right camera"%string,
             num_sub a (int 90) (num_abs a angle_of_view_left_x),
             num_add a (int 90) (num_abs a angle_of_view_right_x))
  else None.

(** Lines 108-112, for the [ValueError] of [math.sin]. *)
Definition error_in (msg : string) : result_in a :=
  {| distance_in := None;
     details_in := "Error during distance calculation: " +:+ msg |}.

(** Lines 68-106, with the handler of lines 108-112 for [math.sin]. *)
Definition triangulate_in (cameras_distance : num a) (case : string)
    (internal_angle_left_x internal_angle_right_x : num a) : result_in a :=
  let internal_angle_obj :=
    num_sub a (int 180)
      (num_add a internal_angle_left_x internal_angle_right_x) in
  if num_le a internal_angle_obj (int 0) then
    {| distance_in := None;
       details_in := "Invalid internal angles leading to degenerate triangle." |}
  else
    let internal_angle_right_x_rad := num_radians a internal_angle_right_x in
    let internal_angle_left_x_rad := num_radians a internal_angle_left_x in
    let internal_angle_obj_rad := num_radians a internal_angle_obj in
    match num_sin a internal_angle_obj_rad with
    | inr msg => error_in msg
    | inl sin_obj =>
        let denominator := num_pow2 a sin_obj in
        if num_eq a denominator (int 0) then
          {| distance_in := None;
             details_in := "Division by zero encountered in distance calculation." |}
        else
          match num_sin a internal_angle_left_x_rad with
          | inr msg => error_in msg
          | inl sin_left =>
              match num_sin a internal_angle_right_x_rad with
              | inr msg => error_in msg
              | inl sin_right =>
                  let numerator :=
                    num_add a (num_pow2 a sin_left) (num_pow2 a sin_right) in
                  let value_inside_sqrt :=
                    num_sub a
                      (num_mul a (int 2) (num_div a numerator denominator))
                      (int 1) in
                  if num_lt a value_inside_sqrt (int 0) then
                    {| distance_in := None;
                       details_in := "Invalid value inside square root in distance calculation." |}
                  else
                    {| distance_in :=
                         Some (num_mul a (num_div a cameras_distance (int 2))
                                 (num_sqrt a value_inside_sqrt));
                       details_in := "Object is " +:+ case +:+ "." |}
              end
          end
    end.

(** Lines 49-106 on two numeric angles. *)
Definition calculate_distance_in (cameras_distance : num a)
    (angle_of_view_left_x angle_of_view_right_x : num a) : result_in a :=
  match classify_in angle_of_view_left_x angle_of_view_right_x with
  | None =>
      {| distance_in := None;
         details_in := "Unknown case based on angles: left="
                       +:+ num_str a angle_of_view_left_x
                       +:+ ", right="
                       +:+ num_str a angle_of_view_right_x |}
  | Some (case, internal_angle_left_x, internal_angle_right_x) =>
      triangulate_in cameras_distance case
        internal_angle_left_x internal_angle_right_x
  end.

End Engine.

(** Exact real arithmetic: the arithmetic of [classify] and
    [triangulate] above. *)
Definition real_arithmetic (format_float : R -> string) : arithmetic :=
  {| num := R;
     num_of_int := IZR;
     num_add := Rplus;
     num_sub := Rminus;
     num_mul := Rmult;
     num_div := Rdiv;
     num_abs := Rabs;
     num_pow2 := fun x => x ^ 2;
     num_radians := radians;
     num_sin := fun x => inl (sin x);
     num_sqrt := sqrt;
     num_lt := Rltb;
     num_le := Rleb;
     num_eq := Reqb;
     num_str := format_float |}.

(** The conversion of a small [int] literal to a [float]. *)
Definition float_of_int (z : Z) : float :=
  match z with
  | Z0 => PrimFloat.of_uint63 (Uint63.of_Z 0)
  | Zpos _ => PrimFloat.of_uint63 (Uint63.of_Z z)
  | Zneg _ => PrimFloat.opp (PrimFloat.of_uint63 (Uint63.of_Z (- z)))
  end.

(** [math.pi], and [math.radians] as CPython computes it:
    [x * (pi / 180.0)]. *)
Definition float_pi : float := 0x1.921fb54442d18p+1%float.

Definition float_radians (x : float) : float :=
  PrimFloat.mul x (PrimFloat.div float_pi (float_of_int 180)).

(** Binary64, the arithmetic of Python's [float]: the IEEE operations are
    Rocq's primitive ones; [sin] and [pow] come from the C library and
    are parameters, as is the rendering of a float. *)
Definition binary64 (libm_sin : float -> float + string)
    (libm_pow : float -> float -> float) (repr : float -> string)
  : arithmetic :=
  {| num := float;
     num_of_int := float_of_int;
     num_add := PrimFloat.add;
     num_sub := PrimFloat.sub;
     num_mul := PrimFloat.mul;
     num_div := PrimFloat.div;
     num_abs := PrimFloat.abs;
     num_pow2 := fun x => libm_pow x (float_of_int 2);
     num_radians := float_radians;
     num_sin := libm_sin;
     num_sqrt := PrimFloat.sqrt;
     num_lt := PrimFloat.ltb;
     num_le := PrimFloat.leb;
     num_eq := PrimFloat.eqb;
     num_str := repr |}.

(** ** Reduction lemmas for the primitives *)

Ltac unfold_monad :=
  cbv [mbind M_bind bind mret M_ret ret raise get_self put_self try_except].

Lemma Rltb_true (x y : R) : x < y -> Rltb x y = true.
Proof. intros H; unfold Rltb; destruct (Rlt_dec x y); [reflexivity | contradiction]. Qed.

Lemma Rltb_false (x y : R) : ~ x < y -> Rltb x y = false.
Proof. intros H; unfold Rltb; destruct (Rlt_dec x y); [contradiction | reflexivity]. Qed.

Lemma Rleb_true (x y : R) : x <= y -> Rleb x y = true.
Proof. intros H; unfold Rleb; destruct (Rle_dec x y); [reflexivity | contradiction]. Qed.

Lemma Rleb_false (x y : R) : ~ x <= y -> Rleb x y = false.
Proof. intros H; unfold Rleb; destruct (Rle_dec x y); [contradiction | reflexivity]. Qed.

Lemma Reqb_true (x y : R) : x = y -> Reqb x y = true.
Proof. intros H; unfold Reqb; destruct (Req_dec_T x y); [reflexivity | contradiction]. Qed.

Lemma Reqb_false (x y : R) : x <> y -> Reqb x y = false.
Proof. intros H; unfold Reqb; destruct (Req_dec_T x y); [contradiction | reflexivity]. Qed.

Lemma getitem_Some (d : gmap string pyval) (k : string) (v : pyval) self :
  d !! k = Some v -> getitem d k self = (Ret v, self).
Proof. intros H; unfold getitem; rewrite H; reflexivity. Qed.

Lemma getitem_None (d : gmap string pyval) (k : string) self :
  d !! k = None -> getitem d k self = (Raise (KeyError k), self).
Proof. intros H; unfold getitem; rewrite H; reflexivity. Qed.

Lemma py_lt0_num (v : pyval) (x : R) self :
  num_of v = Some x -> py_lt0 v self = (Ret (Rltb x 0), self).
Proof. intros H; unfold py_lt0; rewrite H; reflexivity. Qed.

Lemma py_gt0_num (v : pyval) (x : R) self :
  num_of v = Some x -> py_gt0 v self = (Ret (Rltb 0 x), self).
Proof. intros H; unfold py_gt0; rewrite H; reflexivity. Qed.

Lemma py_abs_num (v : pyval) (x : R) self :
  num_of v = Some x -> py_abs v self = (Ret (Rabs x), self).
Proof. intros H; unfold py_abs; rewrite H; reflexivity. Qed.

Lemma make_observation_observation (i o : Z) (a : R) :
  observation (make_observation i o a) (PyFloat a).
Proof.
  unfold observation, make_observation; split; [|split].
  - exists (PyInt i); apply lookup_insert_eq.
  - exists (PyInt o). rewrite lookup_insert_ne by discriminate.
    apply lookup_insert_eq.
  - do 2 (rewrite lookup_insert_ne by discriminate). apply lookup_insert_eq.
Qed.

(** ** The classification (lines 49-62) on numbers *)

Section Classify.

Variables (vl vr : pyval) (l r : R) (self : DistanceCalculation).
Hypothesis Hl : num_of vl = Some l.
Hypothesis Hr : num_of vr = Some r.

Ltac classify_step :=
  unfold classify, py_and; unfold_monad;
  repeat first
    [ rewrite (py_lt0_num _ _ _ Hl) | rewrite (py_gt0_num _ _ _ Hl)
    | rewrite (py_lt0_num _ _ _ Hr) | rewrite (py_gt0_num _ _ _ Hr)
    | rewrite (py_abs_num _ _ _ Hl) | rewrite (py_abs_num _ _ _ Hr)
    | rewrite Rltb_true by lra | rewrite Rltb_false by lra
    | progress cbn beta iota ].

Lemma classify_between :
  l < 0 -> 0 < r ->
  classify vl vr self
  = (Ret (Some ("between the cameras"%string, 90 - Rabs l, 90 - Rabs r)), self).
Proof. intros H1 H2. classify_step. reflexivity. Qed.

Lemma classify_left :
  0 < l -> 0 < r ->
  classify vl vr self
  = (Ret (Some ("to the left of the left camera"%string,
                90 + Rabs l, 90 - Rabs r)), self).
Proof. intros H1 H2. classify_step. reflexivity. Qed.

Lemma classify_right :
  l < 0 -> r < 0 ->
  classify vl vr self
  = (Ret (Some ("to the right of the right camera"%string,
                90 - Rabs l, 90 + Rabs r)), self).
Proof. intros H1 H2. classify_step. reflexivity. Qed.

Lemma classify_unknown :
  ~ (l < 0 /\ 0 < r) -> ~ (0 < l /\ 0 < r) -> ~ (l < 0 /\ r < 0) ->
  classify vl vr self = (Ret None, self).
Proof.
  intros H1 H2 H3.
  destruct (Rtotal_order l 0) as [Lneg | [Lz | Lpos]];
    destruct (Rtotal_order r 0) as [Rneg | [Rz | Rpos]];
    try (exfalso; tauto); classify_step; reflexivity.
Qed.

End Classify.

(** ** [calculate_distance] on well-formed observations *)

(** The triangulation never raises and never assigns to [self]. *)
Lemma triangulate_returns (case : string) (A B : R) self :
  exists res, triangulate case A B self = (Ret res, self).
Proof.
  unfold triangulate; unfold_monad.
  destruct (Rleb _ 0); [eexists; reflexivity|].
  destruct (Reqb _ 0); [eexists; reflexivity|].
  destruct (Rltb _ 0); eexists; reflexivity.
Qed.

Lemma calculate_distance_body_observation
    (format_float : R -> string) (left_image right_image : gmap string pyval)
    (vl vr : pyval) self :
  observation left_image vl -> observation right_image vr ->
  calculate_distance_body format_float left_image right_image self
  = match classify vl vr self with
    | (Ret None, self') =>
        (Ret {| distance := None;
                details := "Unknown case based on angles: left="
                           +:+ format_value format_float vl
                           +:+ ", right="
                           +:+ format_value format_float vr |}, self')
    | (Ret (Some (case, A, B)), self') => triangulate case A B self'
    | (Raise e, self') => (Raise e, self')
    end.
Proof.
  intros (Hli & Hlo & Hla) (Hri & Hro & Hra).
  destruct Hli as [li Hli], Hlo as [lo Hlo], Hri as [ri Hri], Hro as [ro Hro].
  unfold calculate_distance_body; unfold_monad.
  rewrite (getitem_Some _ _ _ _ Hli), (getitem_Some _ _ _ _ Hlo),
          (getitem_Some _ _ _ _ Hla); cbn beta iota.
  rewrite (getitem_Some _ _ _ _ Hri), (getitem_Some _ _ _ _ Hro),
          (getitem_Some _ _ _ _ Hra); cbn beta iota.
  destruct (classify vl vr self) as [[[[[case A] B]|]|e] self']; reflexivity.
Qed.

Lemma calculate_distance_classified
    (format_float : R -> string) (left_image right_image : gmap string pyval)
    (vl vr : pyval) (case : string) (A B : R) self :
  observation left_image vl -> observation right_image vr ->
  classify vl vr self = (Ret (Some (case, A, B)), self) ->
  calculate_distance format_float left_image right_image self
  = triangulate case A B self.
Proof.
  intros Hol Hor Hc. unfold calculate_distance, try_except.
  rewrite (calculate_distance_body_observation _ _ _ _ _ _ Hol Hor), Hc.
  destruct (triangulate_returns case A B self) as [res ->]. reflexivity.
Qed.

Lemma calculate_distance_unclassified
    (format_float : R -> string) (left_image right_image : gmap string pyval)
    (vl vr : pyval) self :
  observation left_image vl -> observation right_image vr ->
  classify vl vr self = (Ret None, self) ->
  calculate_distance format_float left_image right_image self
  = (Ret {| distance := None;
            details := "Unknown case based on angles: left="
                       +:+ format_value format_float vl
                       +:+ ", right="
                       +:+ format_value format_float vr |}, self).
Proof.
  intros Hol Hor Hc. unfold calculate_distance, try_except.
  rewrite (calculate_distance_body_observation _ _ _ _ _ _ Hol Hor), Hc.
  reflexivity.
Qed.

(** The three outcomes of the triangulation once the object angle is
    positive. *)
Lemma triangulate_degenerate (case : string) (A B : R) self :
  internal_angle_obj A B <= 0 ->
  triangulate case A B self
  = (Ret {| distance := None;
            details := "Invalid internal angles leading to degenerate triangle." |},
     self).
Proof.
  intros H. unfold triangulate. rewrite Rleb_true by assumption. reflexivity.
Qed.

Lemma triangulate_zero_denominator (case : string) (A B : R) self :
  0 < internal_angle_obj A B ->
  denominator (radians (internal_angle_obj A B)) = 0 ->
  triangulate case A B self
  = (Ret {| distance := None;
            details := "Division by zero encountered in distance calculation." |},
     self).
Proof.
  intros H1 H2. unfold triangulate.
  rewrite Rleb_false by lra. rewrite Reqb_true by assumption. reflexivity.
Qed.

Lemma triangulate_negative (case : string) (A B : R) self :
  0 < internal_angle_obj A B ->
  denominator (radians (internal_angle_obj A B)) <> 0 ->
  value_inside_sqrt A B < 0 ->
  triangulate case A B self
  = (Ret {| distance := None;
            details := "Invalid value inside square root in distance calculation." |},
     self).
Proof.
  intros H1 H2 H3. unfold triangulate.
  rewrite Rleb_false by lra. rewrite Reqb_false by assumption.
  fold (value_inside_sqrt A B). rewrite Rltb_true by assumption. reflexivity.
Qed.

Lemma triangulate_distance (case : string) (A B : R) self :
  0 < internal_angle_obj A B ->
  denominator (radians (internal_angle_obj A B)) <> 0 ->
  0 <= value_inside_sqrt A B ->
  triangulate case A B self
  = (Ret {| distance :=
              Some (cameras_distance self / 2 * sqrt (value_inside_sqrt A B));
            details := "Object is " +:+ case +:+ "." |},
     self).
Proof.
  intros H1 H2 H3. unfold triangulate.
  rewrite Rleb_false by lra. rewrite Reqb_false by assumption.
  fold (value_inside_sqrt A B). rewrite Rltb_false by lra. reflexivity.
Qed.

(** ** Frame lemmas: what the methods read and write *)

Lemma read_only_ret {A} (a : A) : read_only (mret a).
Proof. intros self; reflexivity. Qed.

Lemma read_only_raise {A} (e : exn) : read_only (@raise A e).
Proof. intros self; reflexivity. Qed.

Lemma read_only_get_self : read_only get_self.
Proof. intros self; reflexivity. Qed.

Lemma read_only_bind {A B} (m : M A) (k : A -> M B) :
  read_only m -> (forall a, read_only (k a)) -> read_only (m ≫= k).
Proof.
  intros Hm Hk self. unfold_monad. specialize (Hm self).
  destruct (m self) as [[a|e] self']; simpl in *; subst; [apply Hk | reflexivity].
Qed.

Lemma read_only_try_except {A} (m : M A) (h : exn -> M A) :
  read_only m -> (forall e, read_only (h e)) -> read_only (try_except m h).
Proof.
  intros Hm Hh self. unfold try_except. specialize (Hm self).
  destruct (m self) as [[a|e] self']; simpl in *; subst; [reflexivity | apply Hh].
Qed.

Lemma baseline_only_ret {A} (a : A) : baseline_only (mret a).
Proof. intros s1 s2 _; reflexivity. Qed.

Lemma baseline_only_raise {A} (e : exn) : baseline_only (@raise A e).
Proof. intros s1 s2 _; reflexivity. Qed.

Lemma baseline_only_bind {A B} (m : M A) (k : A -> M B) :
  read_only m -> baseline_only m -> (forall a, baseline_only (k a)) ->
  baseline_only (m ≫= k).
Proof.
  intros Hro Hm Hk s1 s2 E. unfold_monad.
  pose proof (Hro s1) as R1. pose proof (Hro s2) as R2.
  specialize (Hm s1 s2 E).
  destruct (m s1) as [o1 s1'], (m s2) as [o2 s2']; simpl in *; subst.
  destruct o2 as [a|e]; [apply Hk; assumption | reflexivity].
Qed.

Lemma baseline_only_try_except {A} (m : M A) (h : exn -> M A) :
  read_only m -> baseline_only m -> (forall e, baseline_only (h e)) ->
  baseline_only (try_except m h).
Proof.
  intros Hro Hm Hh s1 s2 E. unfold try_except.
  pose proof (Hro s1) as R1. pose proof (Hro s2) as R2.
  specialize (Hm s1 s2 E).
  destruct (m s1) as [o1 s1'], (m s2) as [o2 s2']; simpl in *; subst.
  destruct o2 as [a|e]; [reflexivity | apply Hh; assumption].
Qed.

Ltac frame_step :=
  first
    [ apply read_only_ret | apply read_only_raise | apply read_only_get_self
    | apply baseline_only_ret | apply baseline_only_raise
    | apply read_only_bind; [|intros ?]
    | apply read_only_try_except; [|intros ?]
    | match goal with
      | |- read_only (if ?b then _ else _) => destruct b
      | |- read_only (match ?x with _ => _ end) => destruct x
      | |- baseline_only (if ?b then _ else _) => destruct b
      | |- baseline_only (match ?x with _ => _ end) => destruct x
      end ].

Lemma read_only_getitem d k : read_only (getitem d k).
Proof. unfold getitem; repeat frame_step. Qed.

Lemma read_only_py_lt0 v : read_only (py_lt0 v).
Proof. unfold py_lt0; repeat frame_step. Qed.

Lemma read_only_py_gt0 v : read_only (py_gt0 v).
Proof. unfold py_gt0; repeat frame_step. Qed.

Lemma read_only_py_abs v : read_only (py_abs v).
Proof. unfold py_abs; repeat frame_step. Qed.

Lemma read_only_py_sub a b : read_only (py_sub a b).
Proof. unfold py_sub; repeat frame_step. Qed.

Lemma read_only_py_and a b : read_only a -> read_only b -> read_only (py_and a b).
Proof. intros Ha Hb; unfold py_and; repeat frame_step; assumption. Qed.

Create HintDb frame.

#[local] Hint Resolve read_only_getitem read_only_py_lt0 read_only_py_gt0
  read_only_py_abs read_only_py_sub read_only_py_and : frame.

Lemma read_only_classify vl vr : read_only (classify vl vr).
Proof. unfold classify; repeat (frame_step; auto with frame). Qed.

Lemma read_only_triangulate case A B : read_only (triangulate case A B).
Proof. unfold triangulate; repeat (frame_step; auto with frame). Qed.

#[local] Hint Resolve read_only_classify read_only_triangulate : frame.

Lemma read_only_calculate_distance_body fmt left_image right_image :
  read_only (calculate_distance_body fmt left_image right_image).
Proof.
  unfold calculate_distance_body; repeat (frame_step; auto with frame).
Qed.

Lemma read_only_calculate_distance fmt left_image right_image :
  read_only (calculate_distance fmt left_image right_image).
Proof.
  unfold calculate_distance. apply read_only_try_except.
  - apply read_only_calculate_distance_body.
  - intros e; apply read_only_ret.
Qed.

Lemma read_only_calculate_distance_using_disparity left_image right_image :
  read_only (calculate_distance_using_disparity left_image right_image).
Proof.
  unfold calculate_distance_using_disparity,
    calculate_distance_using_disparity_body.
  repeat (frame_step; auto with frame).
Qed.

Ltac baseline_bind :=
  apply baseline_only_bind; [auto with frame | | intros ?].

Lemma baseline_only_getitem d k : baseline_only (getitem d k).
Proof. unfold getitem; repeat frame_step. Qed.

Lemma baseline_only_py_lt0 v : baseline_only (py_lt0 v).
Proof. unfold py_lt0; repeat frame_step. Qed.

Lemma baseline_only_py_gt0 v : baseline_only (py_gt0 v).
Proof. unfold py_gt0; repeat frame_step. Qed.

Lemma baseline_only_py_abs v : baseline_only (py_abs v).
Proof. unfold py_abs; repeat frame_step. Qed.

Lemma baseline_only_py_and a b :
  read_only a -> baseline_only a -> baseline_only b ->
  baseline_only (py_and a b).
Proof.
  intros Ra Ha Hb; unfold py_and.
  apply baseline_only_bind; [assumption | assumption | intros x].
  destruct x; [assumption | apply baseline_only_ret].
Qed.

#[local] Hint Resolve baseline_only_getitem baseline_only_py_lt0
  baseline_only_py_gt0 baseline_only_py_abs baseline_only_py_and : frame.

Lemma baseline_only_classify vl vr : baseline_only (classify vl vr).
Proof.
  unfold classify.
  repeat first [ baseline_bind; [solve [auto with frame]|]
               | frame_step ].
Qed.

Lemma baseline_only_triangulate case A B : baseline_only (triangulate case A B).
Proof.
  intros s1 s2 E. unfold triangulate; unfold_monad.
  destruct (Rleb _ 0); [reflexivity|].
  destruct (Reqb _ 0); [reflexivity|].
  destruct (Rltb _ 0); [reflexivity|].
  cbn. rewrite E. reflexivity.
Qed.

#[local] Hint Resolve baseline_only_classify baseline_only_triangulate : frame.

Lemma baseline_only_calculate_distance fmt left_image right_image :
  baseline_only (calculate_distance fmt left_image right_image).
Proof.
  unfold calculate_distance.
  apply baseline_only_try_except.
  - apply read_only_calculate_distance_body.
  - unfold calculate_distance_body.
    repeat first [ baseline_bind; [solve [auto with frame]|]
                 | solve [auto with frame]
                 | frame_step ].
  - intros e; apply baseline_only_ret.
Qed.

(** The result of [calculate_distance] is a function of the two angle
    values: the other entries of the records are read and dropped. *)
Lemma calculate_distance_angles_only fmt l1 r1 l2 r2 vl vr self :
  observation l1 vl -> observation r1 vr ->
  observation l2 vl -> observation r2 vr ->
  calculate_distance fmt l1 r1 self = calculate_distance fmt l2 r2 self.
Proof.
  intros H1 H2 H3 H4. unfold calculate_distance, try_except.
  rewrite (calculate_distance_body_observation _ _ _ _ _ _ H1 H2).
  rewrite (calculate_distance_body_observation _ _ _ _ _ _ H3 H4).
  reflexivity.
Qed.

(** ** The geometry behind the radicand *)



Lemma radians_internal_angle_obj (A B : R) :
  radians (internal_angle_obj A B) = PI - (radians A + radians B).
Proof. unfold radians, internal_angle_obj. field. Qed.

Lemma denominator_sum (A B : R) :
  denominator (radians (internal_angle_obj A B))
  = sin (radians A + radians B) ^ 2.
Proof.
  unfold denominator. rewrite radians_internal_angle_obj, sin_PI_x. reflexivity.
Qed.



(** ** Numerical bounds for the reference field of view *)

Lemma PI_bounds : 314159 / 100000 < PI < 31416 / 10000.
Proof.
  pose proof (PI_2_3_7_ineq 2) as [Hlo Hhi].
  unfold PI_2_3_7_tg, tg_alt, Ratan_seq in Hlo, Hhi.
  simpl in Hlo, Hhi.
  split; lra.
Qed.

Lemma fact_IZR (n : nat) (z : Z) :
  Z.of_nat (fact n) = z -> INR (fact n) = IZR z.
Proof. intros <-. apply INR_IZR_INZ. Qed.

Lemma sin_lb_poly (a : R) :
  sin_lb a = a - a ^ 3 / 6 + a ^ 5 / 120 - a ^ 7 / 5040.
Proof.
  unfold sin_lb, sin_approx, sin_term. cbn [sum_f_R0].
  rewrite (fact_IZR (2 * 0 + 1) 1), (fact_IZR (2 * 1 + 1) 6),
    (fact_IZR (2 * 2 + 1) 120), (fact_IZR (2 * 3 + 1) 5040) by reflexivity.
  simpl. field.
Qed.

Lemma sin_ub_poly (a : R) :
  sin_ub a = a - a ^ 3 / 6 + a ^ 5 / 120 - a ^ 7 / 5040 + a ^ 9 / 362880.
Proof.
  unfold sin_ub, sin_approx, sin_term. cbn [sum_f_R0].
  rewrite (fact_IZR (2 * 0 + 1) 1), (fact_IZR (2 * 1 + 1) 6),
    (fact_IZR (2 * 2 + 1) 120), (fact_IZR (2 * 3 + 1) 5040),
    (fact_IZR (2 * 4 + 1) 362880) by reflexivity.
  simpl. field.
Qed.

Lemma cos_lb_poly (a : R) :
  cos_lb a = 1 - a ^ 2 / 2 + a ^ 4 / 24 - a ^ 6 / 720.
Proof.
  unfold cos_lb, cos_approx, cos_term. cbn [sum_f_R0].
  rewrite (fact_IZR (2 * 0) 1), (fact_IZR (2 * 1) 2),
    (fact_IZR (2 * 2) 24), (fact_IZR (2 * 3) 720) by reflexivity.
  simpl. field.
Qed.

Lemma cos_ub_poly (a : R) :
  cos_ub a = 1 - a ^ 2 / 2 + a ^ 4 / 24 - a ^ 6 / 720 + a ^ 8 / 40320.
Proof.
  unfold cos_ub, cos_approx, cos_term. cbn [sum_f_R0].
  rewrite (fact_IZR (2 * 0) 1), (fact_IZR (2 * 1) 2),
    (fact_IZR (2 * 2) 24), (fact_IZR (2 * 3) 720),
    (fact_IZR (2 * 4) 40320) by reflexivity.
  simpl. field.
Qed.

(** Half of 55 degrees, in radians. *)
Lemma half_fov_bounds :
  479965 / 1000000 < radians (55 / 2) < 479967 / 1000000.
Proof. pose proof PI_bounds. unfold radians. split; lra. Qed.

Lemma sin_half_fov_bounds :
  461748 / 1000000 < sin (radians (55 / 2)) < 461750 / 1000000.
Proof.
  pose proof PI_bounds as HPI. pose proof half_fov_bounds as [Hlo Hhi].
  split.
  - apply Rle_lt_trans with (sin (479965 / 1000000)).
    + apply Rlt_le, Rlt_le_trans with (sin_lb (479965 / 1000000)).
      * rewrite sin_lb_poly. lra.
      * apply SIN; lra.
    + apply sin_increasing_1; lra.
  - apply Rlt_le_trans with (sin (479967 / 1000000)).
    + apply sin_increasing_1; lra.
    + apply Rlt_le, Rle_lt_trans with (sin_ub (479967 / 1000000)).
      * apply SIN; lra.
      * rewrite sin_ub_poly. lra.
Qed.

Lemma cos_half_fov_bounds :
  887010 / 1000000 < cos (radians (55 / 2)) < 887012 / 1000000.
Proof.
  pose proof PI_bounds as HPI. pose proof half_fov_bounds as [Hlo Hhi].
  split.
  - apply Rlt_trans with (cos (479967 / 1000000)).
    + apply Rlt_le_trans with (cos_lb (479967 / 1000000)).
      * rewrite cos_lb_poly. lra.
      * apply COS; lra.
    + apply cos_decreasing_1; lra.
  - apply Rlt_trans with (cos (479965 / 1000000)).
    + apply cos_decreasing_1; lra.
    + apply Rle_lt_trans with (cos_ub (479965 / 1000000)).
      * apply COS; lra.
      * rewrite cos_ub_poly. lra.
Qed.

(** The focal length for a 55 degree field of view. *)
Lemma focal_length_55_bounds (b : R) :
  61470 / 100 < focal_length (init 55 b) < 61472 / 100.
Proof.
  pose proof sin_half_fov_bounds as [Hs1 Hs2].
  pose proof cos_half_fov_bounds as [Hc1 Hc2].
  unfold init; cbn [focal_length]. unfold tan.
  set (s := sin (radians (55 / 2))) in *.
  set (c := cos (radians (55 / 2))) in *.
  replace (640 / (2 * (s / c))) with (320 * c / s) by (field; lra).
  split.
  - apply (Rmult_lt_reg_r s); [lra|].
    unfold Rdiv at 2. rewrite Rmult_assoc, Rinv_l by lra. nra.
  - apply (Rmult_lt_reg_r s); [lra|].
    unfold Rdiv at 1. rewrite Rmult_assoc, Rinv_l by lra. nra.
Qed.



Lemma reference_left_observation : observation reference_left (PyFloat (-10)).
Proof. apply make_observation_observation. Qed.

Lemma reference_right_observation : observation reference_right (PyFloat 8).
Proof. apply make_observation_observation. Qed.

(** * The properties of the engine *)

(** ** Classification *)

(** C1. On a pair of observations whose angles of view are the numbers
    [l] (left) and [r] (right): if [l < 0 < r] the case is "between the
    cameras" with internal angles [90 - |l|] and [90 - |r|]; if both are
    positive the case is "to the left of the left camera" with
    [90 + |l|] and [90 - |r|]; if both are negative the case is "to the
    right of the right camera" with [90 - |l|] and [90 + |r|].  In each
    case [calculate_distance] continues with the triangulation of that
    case and those angles. *)
Theorem classification_cases
    (format_float : R -> string) (left_image right_image : gmap string pyval)
    (vl vr : pyval) (l r : R) (self : DistanceCalculation) :
  observation left_image vl -> observation right_image vr ->
  num_of vl = Some l -> num_of vr = Some r ->
  (l < 0 -> 0 < r ->
   classify vl vr self
   = (Ret (Some ("between the cameras"%string, 90 - Rabs l, 90 - Rabs r)),
      self) /\
   calculate_distance format_float left_image right_image self
   = triangulate "between the cameras" (90 - Rabs l) (90 - Rabs r) self) /\
  (0 < l -> 0 < r ->
   classify vl vr self
   = (Ret (Some ("to the left of the left camera"%string,
                 90 + Rabs l, 90 - Rabs r)), self) /\
   calculate_distance format_float left_image right_image self
   = triangulate "to the left of the left camera"
       (90 + Rabs l) (90 - Rabs r) self) /\
  (l < 0 -> r < 0 ->
   classify vl vr self
   = (Ret (Some ("to the right of the right camera"%string,
                 90 - Rabs l, 90 + Rabs r)), self) /\
   calculate_distance format_float left_image right_image self
   = triangulate "to the right of the right camera"
       (90 - Rabs l) (90 + Rabs r) self).
Proof.
  intros Hol Hor Hl Hr. split; [|split]; intros H1 H2.
  - pose proof (classify_between vl vr l r self Hl Hr H1 H2) as Hc.
    split; [exact Hc | eapply calculate_distance_classified; eauto].
  - pose proof (classify_left vl vr l r self Hl Hr H1 H2) as Hc.
    split; [exact Hc | eapply calculate_distance_classified; eauto].
  - pose proof (classify_right vl vr l r self Hl Hr H1 H2) as Hc.
    split; [exact Hc | eapply calculate_distance_classified; eauto].
Qed.

Lemma classification_cases_witness :
  classify (PyFloat (-10)) (PyFloat 8) reference_rig
  = (Ret (Some ("between the cameras"%string,
                90 - Rabs (-10), 90 - Rabs 8)), reference_rig) /\
  classify (PyFloat 10) (PyFloat 8) reference_rig
  = (Ret (Some ("to the left of the left camera"%string,
                90 + Rabs 10, 90 - Rabs 8)), reference_rig) /\
  classify (PyFloat (-10)) (PyFloat (-8)) reference_rig
  = (Ret (Some ("to the right of the right camera"%string,
                90 - Rabs (-10), 90 + Rabs (-8))), reference_rig).
Proof.
  split; [|split].
  - refine (proj1 (proj1 (classification_cases sample_format
      reference_left reference_right (PyFloat (-10)) (PyFloat 8) (-10) 8
      reference_rig reference_left_observation reference_right_observation
      eq_refl eq_refl) _ _)); lra.
  - refine (proj1 (proj1 (proj2 (classification_cases sample_format
      (make_observation 550 350 10) reference_right
      (PyFloat 10) (PyFloat 8) 10 8 reference_rig
      (make_observation_observation _ _ _) reference_right_observation
      eq_refl eq_refl)) _ _)); lra.
  - refine (proj1 (proj2 (proj2 (classification_cases sample_format
      reference_left (make_observation 550 710 (-8))
      (PyFloat (-10)) (PyFloat (-8)) (-10) (-8) reference_rig
      reference_left_observation (make_observation_observation _ _ _)
      eq_refl eq_refl)) _ _)); lra.
Defined.

(** ** The distance formula *)

(** The engines [classify] and [triangulate] above are the engine over
    exact real arithmetic. *)
Lemma triangulate_real_instance (format_float : R -> string)
    (case : string) (A B : R) self :
  triangulate case A B self
  = (Ret {| distance :=
              distance_in (triangulate_in (real_arithmetic format_float)
                             (cameras_distance self) case A B);
            details :=
              details_in (triangulate_in (real_arithmetic format_float)
                            (cameras_distance self) case A B) |}, self).
Proof.
  unfold triangulate, triangulate_in, internal_angle_obj, denominator,
    numerator; unfold_monad; cbn [real_arithmetic num_of_int num_add num_sub
    num_mul num_div num_pow2 num_radians num_sin num_sqrt num_lt num_le num_eq].
  destruct (Rleb _ 0); [reflexivity|].
  destruct (Reqb _ 0); [reflexivity|].
  destruct (Rltb _ 0); reflexivity.
Qed.

Lemma classify_real_instance (format_float : R -> string) (l r : R) self :
  classify (PyFloat l) (PyFloat r) self
  = (Ret (classify_in (real_arithmetic format_float) l r), self).
Proof.
  unfold classify, classify_in, py_and, py_lt0, py_gt0, py_abs; unfold_monad;
    cbn [num_of real_arithmetic num_of_int num_add num_sub num_abs num_lt].
  destruct (Rltb l 0), (Rltb 0 r), (Rltb 0 l), (Rltb r 0); reflexivity.
Qed.

Lemma calculate_distance_real_instance (format_float : R -> string)
    (left_image right_image : gmap string pyval) (l r : R) self :
  observation left_image (PyFloat l) -> observation right_image (PyFloat r) ->
  calculate_distance format_float left_image right_image self
  = (Ret {| distance :=
              distance_in (calculate_distance_in (real_arithmetic format_float)
                             (cameras_distance self) l r);
            details :=
              details_in (calculate_distance_in (real_arithmetic format_float)
                            (cameras_distance self) l r) |}, self).
Proof.
  intros Hol Hor. unfold calculate_distance, try_except.
  rewrite (calculate_distance_body_observation _ _ _ _ _ _ Hol Hor).
  rewrite (classify_real_instance format_float). unfold calculate_distance_in.
  destruct (classify_in (real_arithmetic format_float) l r)
    as [[[case A] B]|]; [|reflexivity].
  rewrite (triangulate_real_instance format_float). reflexivity.
Qed.

(** C2. In every arithmetic, on a classified pair whose internal object
    angle [180 - (A + B)] passes the test of line 71 (it is positive) and
    whose sine is [sin_obj], with [denom = sin_obj ** 2]: if [denom == 0]
    the distance is absent ("Division by zero"); otherwise, with
    [v = 2 * ((sin A ** 2 + sin B ** 2) / denom) - 1], if [v < 0] the
    distance is absent ("Invalid value inside square root") and if not the
    distance is [(cameras_distance / 2) * sqrt v] with the details
    "Object is <case>.". *)
Theorem triangulation_guards
    (a : arithmetic) (cameras_distance l r : num a)
    (case : string) (A B sin_obj : num a) :
  classify_in a l r = Some (case, A, B) ->
  num_le a (num_sub a (num_of_int a 180) (num_add a A B)) (num_of_int a 0)
  = false ->
  num_sin a (num_radians a (num_sub a (num_of_int a 180) (num_add a A B)))
  = inl sin_obj ->
  let denom := num_pow2 a sin_obj in
  (num_eq a denom (num_of_int a 0) = true ->
   calculate_distance_in a cameras_distance l r
   = {| distance_in := None;
        details_in := "Division by zero encountered in distance calculation." |})
  /\
  (num_eq a denom (num_of_int a 0) = false ->
   forall sin_left sin_right : num a,
     num_sin a (num_radians a A) = inl sin_left ->
     num_sin a (num_radians a B) = inl sin_right ->
     let v :=
       num_sub a
         (num_mul a (num_of_int a 2)
            (num_div a
               (num_add a (num_pow2 a sin_left) (num_pow2 a sin_right))
               denom))
         (num_of_int a 1) in
     (num_lt a v (num_of_int a 0) = true ->
      calculate_distance_in a cameras_distance l r
      = {| distance_in := None;
           details_in := "Invalid value inside square root in distance calculation." |})
     /\
     (num_lt a v (num_of_int a 0) = false ->
      calculate_distance_in a cameras_distance l r
      = {| distance_in :=
             Some (num_mul a (num_div a cameras_distance (num_of_int a 2))
                     (num_sqrt a v));
           details_in := "Object is " +:+ case +:+ "." |})).
Proof.
  intros Hc Hle Hs denom. unfold calculate_distance_in. rewrite Hc.
  unfold triangulate_in. rewrite Hle, Hs. fold denom. split.
  - intros Hz. rewrite Hz. reflexivity.
  - intros Hnz sin_left sin_right Hl Hr. cbv zeta. rewrite Hnz, Hl, Hr.
    split; intros Hv; rewrite Hv; reflexivity.
Qed.


Tactic Notation "float_literals" "in" hyp(H) :=
  change (float_of_int 0) with 0%float in H;
  change (float_of_int 1) with 1%float in H;
  change (float_of_int 2) with 2%float in H.

(** The three outcomes, each in an arithmetic where it occurs.  In
    binary64, with the values the C library gives for [sin] and [pow]:
    the reference scenario (-10, 8) returns 0.8364447419015903, and the
    flat pair (-90, 90) is stopped by the test of line 93, since
    [sin(pi)] is 1.2246467991473532e-16 and not 0.  In exact real
    arithmetic the flat pair is stopped by the test of line 84. *)
Lemma triangulation_guards_witness :
  (forall libm_sin libm_pow repr,
     libm_sin 0x1.41b2f769cf0e0p-2%float = inl 0x1.3c6ef372fe94fp-2%float ->
     libm_sin 0x1.657184ae74487p+0%float = inl 0x1.f838b8c811c17p-1%float ->
     libm_sin 0x1.6e6127ff9d971p+0%float = inl 0x1.fb046a930947ap-1%float ->
     libm_pow 0x1.3c6ef372fe94fp-2%float 2%float = 0x1.8722191a02d60p-4%float ->
     libm_pow 0x1.f838b8c811c17p-1%float 2%float = 0x1.f08fb2129168dp-1%float ->
     libm_pow 0x1.fb046a930947ap-1%float 2%float = 0x1.f6153f1af3dc1p-1%float ->
     calculate_distance_in (binary64 libm_sin libm_pow repr)
       0x1.0f5c28f5c28f6p-2%float (-10)%float 8%float
     = @mkResultIn (binary64 libm_sin libm_pow repr)
         (Some 0x1.ac427c36c1c9ap-1%float)
         "Object is between the cameras.") /\
  (forall libm_sin libm_pow repr,
     libm_sin 0%float = inl 0%float ->
     libm_sin float_pi = inl 0x1.1a62633145c07p-53%float ->
     libm_pow 0%float 2%float = 0%float ->
     libm_pow 0x1.1a62633145c07p-53%float 2%float
     = 0x1.377ce858a5d48p-106%float ->
     calculate_distance_in (binary64 libm_sin libm_pow repr)
       0x1.0f5c28f5c28f6p-2%float (-90)%float 90%float
     = @mkResultIn (binary64 libm_sin libm_pow repr) None
         "Invalid value inside square root in distance calculation.") /\
  calculate_distance_in (real_arithmetic sample_format) (265 / 1000) (-90) 90
  = @mkResultIn (real_arithmetic sample_format) None
      "Division by zero encountered in distance calculation.".
Proof.
  split; [|split].
  - intros libm_sin libm_pow repr S1 S2 S3 P1 P2 P3.
    pose proof (triangulation_guards (binary64 libm_sin libm_pow repr)
                  0x1.0f5c28f5c28f6p-2%float (-10)%float 8%float
                  "between the cameras" 80%float 82%float
                  0x1.3c6ef372fe94fp-2%float) as H.
    cbn [binary64 num num_of_int num_add num_sub num_mul num_div num_abs
         num_pow2 num_radians num_sin num_sqrt num_lt num_le num_eq] in H.
    destruct H as [_ H]; [reflexivity | reflexivity | exact S1 |].
    float_literals in H. rewrite P1 in H.
    destruct (H eq_refl _ _ S2 S3) as [_ H3].
    rewrite P2, P3 in H3. exact (H3 eq_refl).
  - intros libm_sin libm_pow repr S0 Spi P0 Ppi.
    pose proof (triangulation_guards (binary64 libm_sin libm_pow repr)
                  0x1.0f5c28f5c28f6p-2%float (-90)%float 90%float
                  "between the cameras" 0%float 0%float
                  0x1.1a62633145c07p-53%float) as H.
    cbn [binary64 num num_of_int num_add num_sub num_mul num_div num_abs
         num_pow2 num_radians num_sin num_sqrt num_lt num_le num_eq] in H.
    destruct H as [_ H]; [reflexivity | reflexivity | exact Spi |].
    float_literals in H. rewrite Ppi in H.
    destruct (H eq_refl _ _ S0 S0) as [H2 _].
    rewrite P0 in H2. exact (H2 eq_refl).
  - assert (E1 : Rabs (-90) = 90) by (rewrite Rabs_left by lra; lra).
    assert (E2 : Rabs 90 = 90) by (apply Rabs_right; lra).
    pose proof (triangulation_guards (real_arithmetic sample_format)
                  (265 / 1000) (-90) 90 "between the cameras"
                  (90 - Rabs (-90)) (90 - Rabs 90) 0) as H.
    cbn [real_arithmetic num num_of_int num_add num_sub num_mul num_div
         num_abs num_pow2 num_radians num_sin num_sqrt num_lt num_le num_eq]
      in H.
    destruct H as [H _].
    + unfold classify_in;
        cbn [real_arithmetic num num_of_int num_sub num_abs num_lt].
      rewrite (Rltb_true (-90) 0), (Rltb_true 0 90) by lra. reflexivity.
    + apply Rleb_false. rewrite E1, E2. lra.
    + f_equal. rewrite E1, E2. unfold radians.
      replace ((180 - (90 - 90 + (90 - 90))) * (PI / 180)) with PI by field.
      apply sin_PI.
    + apply H. apply Reqb_true. simpl. ring.
Defined.

(** ** Failure cases *)

(** C4. When the two angles (numbers) match none of the three sign
    patterns, a zero on either side included, the distance is absent and
    the details text carries the rendering of both angle values. *)
Theorem unknown_case_absent
    (format_float : R -> string) (left_image right_image : gmap string pyval)
    (vl vr : pyval) (l r : R) (self : DistanceCalculation) :
  observation left_image vl -> observation right_image vr ->
  num_of vl = Some l -> num_of vr = Some r ->
  ~ (l < 0 /\ 0 < r) -> ~ (0 < l /\ 0 < r) -> ~ (l < 0 /\ r < 0) ->
  calculate_distance format_float left_image right_image self
  = (Ret {| distance := None;
            details := "Unknown case based on angles: left="
                       +:+ format_value format_float vl
                       +:+ ", right="
                       +:+ format_value format_float vr |},
     self).
Proof.
  intros Hol Hor Hl Hr H1 H2 H3.
  eapply calculate_distance_unclassified; eauto.
  apply classify_unknown with (l := l) (r := r); assumption.
Qed.

Lemma unknown_case_absent_witness :
  calculate_distance sample_format
    (make_observation 550 550 0) reference_right reference_rig
  = (Ret {| distance := None;
            details := "Unknown case based on angles: left=<float>, right=<float>" |},
     reference_rig).
Proof.
  refine (unknown_case_absent sample_format
    (make_observation 550 550 0) reference_right (PyFloat 0) (PyFloat 8) 0 8
    reference_rig (make_observation_observation _ _ _)
    reference_right_observation eq_refl eq_refl _ _ _); lra.
Defined.

(** C5. On a classified pair whose two internal camera angles sum to 180
    degrees or more, that is whose internal object angle is not positive,
    the distance is absent and the details are the degenerate-triangle
    message, whatever the baseline. *)
Theorem degenerate_triangle_absent
    (format_float : R -> string) (left_image right_image : gmap string pyval)
    (vl vr : pyval) (case : string) (A B : R) (self : DistanceCalculation) :
  observation left_image vl -> observation right_image vr ->
  classify vl vr self = (Ret (Some (case, A, B)), self) ->
  180 <= A + B ->
  internal_angle_obj A B <= 0 /\
  calculate_distance format_float left_image right_image self
  = (Ret {| distance := None;
            details := "Invalid internal angles leading to degenerate triangle." |},
     self).
Proof.
  intros Hol Hor Hc Hsum.
  assert (Hobj : internal_angle_obj A B <= 0)
    by (unfold internal_angle_obj; lra).
  split; [exact Hobj|].
  rewrite (calculate_distance_classified _ _ _ _ _ _ _ _ _ Hol Hor Hc).
  apply triangulate_degenerate; assumption.
Qed.

Lemma degenerate_triangle_absent_witness :
  calculate_distance sample_format
    (make_observation 550 50 25) (make_observation 550 450 5) reference_rig
  = (Ret {| distance := None;
            details := "Invalid internal angles leading to degenerate triangle." |},
     reference_rig).
Proof.
  assert (Hc : classify (PyFloat 25) (PyFloat 5) reference_rig
               = (Ret (Some ("to the left of the left camera"%string,
                             90 + Rabs 25, 90 - Rabs 5)), reference_rig))
    by (apply classify_left with (l := 25) (r := 5); reflexivity || lra).
  refine (proj2 (degenerate_triangle_absent sample_format
    (make_observation 550 50 25) (make_observation 550 450 5)
    (PyFloat 25) (PyFloat 5) _ _ _ reference_rig
    (make_observation_observation _ _ _) (make_observation_observation _ _ _)
    Hc _)).
  rewrite (Rabs_right 25), (Rabs_right 5) by lra. lra.
Defined.

(** ** The object between the cameras *)






(** ** The disparity estimate *)

Lemma calculate_distance_using_disparity_numbers
    (left_image right_image : gmap string pyval) (vl vr : pyval) (xl xr : R)
    (self : DistanceCalculation) :
  left_image !! "obj_center_x" = Some vl ->
  right_image !! "obj_center_x" = Some vr ->
  num_of vl = Some xl -> num_of vr = Some xr ->
  calculate_distance_using_disparity left_image right_image self
  = (Ret (if Reqb (xl - xr) 0
          then {| distance := None;
                  details := "Disparity is zero, unable to calculate distance." |}
          else {| distance :=
                    Some (focal_length self * cameras_distance self / (xl - xr));
                  details := "Distance calculated using disparity and focal length." |}),
     self).
Proof.
  intros Hl Hr Nl Nr.
  unfold calculate_distance_using_disparity,
    calculate_distance_using_disparity_body; unfold_monad.
  rewrite (getitem_Some _ _ _ _ Hl), (getitem_Some _ _ _ _ Hr).
  unfold py_sub; rewrite Nl, Nr; unfold_monad.
  destruct (Reqb (xl - xr) 0); reflexivity.
Qed.

(** C6. With [disparity] the left object centre minus the right one: a
    zero disparity gives an absent distance; otherwise the distance is
    [focal_length * cameras_distance / disparity], and with a positive
    focal length and a positive baseline it has the sign of the
    disparity. *)
Theorem disparity_distance
    (left_image right_image : gmap string pyval) (vl vr : pyval) (xl xr : R)
    (self : DistanceCalculation) :
  left_image !! "obj_center_x" = Some vl ->
  right_image !! "obj_center_x" = Some vr ->
  num_of vl = Some xl -> num_of vr = Some xr ->
  let disparity := xl - xr in
  (disparity = 0 ->
   calculate_distance_using_disparity left_image right_image self
   = (Ret {| distance := None;
             details := "Disparity is zero, unable to calculate distance." |},
      self)) /\
  (disparity <> 0 ->
   calculate_distance_using_disparity left_image right_image self
   = (Ret {| distance :=
               Some (focal_length self * cameras_distance self / disparity);
             details := "Distance calculated using disparity and focal length." |},
      self)) /\
  (0 < focal_length self -> 0 < cameras_distance self ->
   (0 < disparity ->
    0 < focal_length self * cameras_distance self / disparity) /\
   (disparity < 0 ->
    focal_length self * cameras_distance self / disparity < 0)).
Proof.
  intros Hl Hr Nl Nr disparity.
  rewrite (calculate_distance_using_disparity_numbers _ _ _ _ _ _ _ Hl Hr Nl Nr).
  fold disparity. split; [|split].
  - intros Hz. rewrite Reqb_true by assumption. reflexivity.
  - intros Hnz. rewrite Reqb_false by assumption. reflexivity.
  - intros Hf Hb.
    assert (Hfb : 0 < focal_length self * cameras_distance self)
      by (apply Rmult_lt_0_compat; assumption).
    split; intros Hd.
    + apply Rdiv_lt_0_compat; assumption.
    + unfold Rdiv.
      assert (/ disparity < 0) by (apply Rinv_lt_0_compat; assumption).
      nra.
Qed.

Lemma disparity_distance_witness :
  calculate_distance_using_disparity reference_left reference_right
    reference_rig
  = (Ret {| distance :=
              Some (focal_length reference_rig * cameras_distance reference_rig
                    / (IZR 750 - IZR 390));
            details := "Distance calculated using disparity and focal length." |},
     reference_rig)
  /\ 0 < focal_length reference_rig * cameras_distance reference_rig
          / (IZR 750 - IZR 390).
Proof.
  assert (Hl : reference_left !! "obj_center_x" = Some (PyInt 750)).
  { unfold reference_left, make_observation.
    rewrite lookup_insert_ne by discriminate. apply lookup_insert_eq. }
  assert (Hr : reference_right !! "obj_center_x" = Some (PyInt 390)).
  { unfold reference_right, make_observation.
    rewrite lookup_insert_ne by discriminate. apply lookup_insert_eq. }
  pose proof (focal_length_55_bounds (265 / 1000)) as [Hf _].
  pose proof (disparity_distance reference_left reference_right
    (PyInt 750) (PyInt 390) (IZR 750) (IZR 390) reference_rig
    Hl Hr eq_refl eq_refl) as (_ & Hnz & Hsign).
  split.
  - apply Hnz. lra.
  - apply Hsign; [unfold reference_rig; lra | cbn; lra | lra].
Defined.

(** ** No exception escapes *)

(** C7. On every pair of records and every object, both distance methods
    return a result (a distance field and a details text) and leave the
    object as it was; when the body raises an exception [e] the result
    has an absent distance and details made of the method's prefix
    followed by [str(e)].  A record with no key at all is such an
    input. *)
Theorem distance_methods_never_raise
    (format_float : R -> string) (left_image right_image : gmap string pyval)
    (self : DistanceCalculation) :
  (exists res,
     calculate_distance format_float left_image right_image self
     = (Ret res, self) /\
     forall e self',
       calculate_distance_body format_float left_image right_image self
       = (Raise e, self') ->
       res = {| distance := None;
                details := "Error during distance calculation: "
                           +:+ str_exn e |}) /\
  (exists res,
     calculate_distance_using_disparity left_image right_image self
     = (Ret res, self) /\
     forall e self',
       calculate_distance_using_disparity_body left_image right_image self
       = (Raise e, self') ->
       res = {| distance := None;
                details := "Error calculating distance using disparity: "
                           +:+ str_exn e |}) /\
  calculate_distance format_float ∅ ∅ self
  = (Ret {| distance := None;
            details := "Error during distance calculation: 'img_center_x'" |},
     self) /\
  calculate_distance_using_disparity ∅ ∅ self
  = (Ret {| distance := None;
            details := "Error calculating distance using disparity: 'obj_center_x'" |},
     self).
Proof.
  split; [|split; [|split]].
  - pose proof (read_only_calculate_distance_body format_float
                  left_image right_image self) as Hro.
    unfold calculate_distance, try_except.
    destruct (calculate_distance_body format_float left_image right_image self)
      as [[res | e] self'] eqn:E; simpl in Hro; subst self'.
    + exists res. split; [reflexivity | intros e s' [=]].
    + eexists. split; [reflexivity|]. intros e' s' [= <- _]. reflexivity.
  - assert (Hro : read_only (calculate_distance_using_disparity_body
                               left_image right_image)).
    { unfold calculate_distance_using_disparity_body.
      repeat (frame_step; auto with frame). }
    specialize (Hro self).
    unfold calculate_distance_using_disparity, try_except.
    destruct (calculate_distance_using_disparity_body left_image right_image self)
      as [[res | e] self'] eqn:E; simpl in Hro; subst self'.
    + exists res. split; [reflexivity | intros e s' [=]].
    + eexists. split; [reflexivity|]. intros e' s' [= <- _]. reflexivity.
  - reflexivity.
  - reflexivity.
Qed.

(** ** The configuration *)

Lemma update_pixel_to_angle_ratio_nonzero (w : Z) (self : DistanceCalculation) :
  w <> 0%Z ->
  update_pixel_to_angle_ratio w self
  = (Ret tt,
     {| fov_horizontal := fov_horizontal self;
        cameras_distance := cameras_distance self;
        pixel_to_angle_ratio_x := Some (fov_horizontal self / IZR w);
        focal_length := focal_length self |}).
Proof.
  intros Hw. unfold update_pixel_to_angle_ratio; unfold_monad.
  destruct (decide (w = 0%Z)); [contradiction | reflexivity].
Qed.

Lemma update_pixel_to_angle_ratio_zero (self : DistanceCalculation) :
  update_pixel_to_angle_ratio 0 self = (Raise ZeroDivisionError, self).
Proof. reflexivity. Qed.

(** No call changes the field of view, the baseline or the focal length. *)
Lemma run_call_frame (format_float : R -> string) (c : call)
    (self : DistanceCalculation) :
  fov_horizontal (run_call format_float c self) = fov_horizontal self /\
  cameras_distance (run_call format_float c self) = cameras_distance self /\
  focal_length (run_call format_float c self) = focal_length self.
Proof.
  destruct c as [w | l r | l r]; cbn [run_call].
  - destruct (decide (w = 0%Z)) as [-> | Hw].
    + rewrite update_pixel_to_angle_ratio_zero. auto.
    + rewrite update_pixel_to_angle_ratio_nonzero by assumption. auto.
  - rewrite read_only_calculate_distance. auto.
  - rewrite read_only_calculate_distance_using_disparity. auto.
Qed.

Lemma run_calls_frame (format_float : R -> string) (cs : list call) :
  forall self,
    fov_horizontal (run_calls format_float cs self) = fov_horizontal self /\
    cameras_distance (run_calls format_float cs self) = cameras_distance self /\
    focal_length (run_calls format_float cs self) = focal_length self.
Proof.
  induction cs as [| c cs IH]; intros self; cbn [run_calls]; [auto|].
  destruct (IH (run_call format_float c self)) as (-> & -> & ->).
  apply run_call_frame.
Qed.

(** C8, counterexample.  For a field of view of 55 degrees the focal
    length is not within 0.01 of 615.04. *)
Lemma focal_length_55_not_615_04 :
  ~ Rabs (focal_length (init 55 (265 / 1000)) - 61504 / 100) <= 1 / 100.
Proof.
  pose proof (focal_length_55_bounds (265 / 1000)) as [Hlo Hhi].
  intros H. rewrite Rabs_left in H by lra. lra.
Qed.

(** C8, as amended.  Construction sets the focal length to
    [640 / (2 * tan (radians (f / 2)))]; after any sequence of calls to
    the three methods, returning or raising, the focal length is the one
    set at construction; for [f = 55] it is within 0.01 of 614.71. *)
Theorem focal_length_fixed
    (format_float : R -> string) (f b : R) (cs : list call) :
  focal_length (init f b) = 640 / (2 * tan (radians (f / 2))) /\
  focal_length (run_calls format_float cs (init f b))
  = focal_length (init f b) /\
  Rabs (focal_length (init 55 b) - 61471 / 100) < 1 / 100.
Proof.
  split; [reflexivity|]. split; [apply run_calls_frame|].
  pose proof (focal_length_55_bounds b) as [Hlo Hhi].
  apply Rabs_def1; lra.
Qed.

(** C9, counterexample.  With a width of 0 the call raises
    [ZeroDivisionError] and the ratio stays unset. *)
Lemma update_ratio_zero_width_counterexample :
  fst (update_pixel_to_angle_ratio 0 reference_rig) = Raise ZeroDivisionError /\
  pixel_to_angle_ratio_x (snd (update_pixel_to_angle_ratio 0 reference_rig))
  = None.
Proof. split; reflexivity. Qed.

(** C9, as amended.  For every width [w] other than 0 the call returns no
    value, sets the ratio to [fov_horizontal / w] and leaves the field of
    view, the baseline and the focal length as they were; with a field of
    view of 55 and [w = 320] the ratio is 0.171875. *)
Theorem update_ratio_nonzero_width :
  (forall (w : Z) (self : DistanceCalculation),
     w <> 0%Z ->
     fst (update_pixel_to_angle_ratio w self) = Ret tt /\
     let self' := snd (update_pixel_to_angle_ratio w self) in
     pixel_to_angle_ratio_x self' = Some (fov_horizontal self / IZR w) /\
     fov_horizontal self' = fov_horizontal self /\
     cameras_distance self' = cameras_distance self /\
     focal_length self' = focal_length self) /\
  (forall b : R,
     pixel_to_angle_ratio_x (snd (update_pixel_to_angle_ratio 320 (init 55 b)))
     = Some (171875 / 1000000)).
Proof.
  split.
  - intros w self Hw.
    rewrite update_pixel_to_angle_ratio_nonzero by assumption.
    cbn. auto.
  - intros b. rewrite update_pixel_to_angle_ratio_nonzero by discriminate.
    cbn. f_equal. lra.
Qed.

Lemma update_ratio_nonzero_width_witness :
  fst (update_pixel_to_angle_ratio 640 reference_rig) = Ret tt /\
  pixel_to_angle_ratio_x (snd (update_pixel_to_angle_ratio 640 reference_rig))
  = Some (fov_horizontal reference_rig / IZR 640).
Proof.
  assert (Hw : 640%Z <> 0%Z) by discriminate.
  destruct (proj1 update_ratio_nonzero_width 640%Z reference_rig Hw)
    as (H1 & H2 & _).
  split; [exact H1 | exact H2].
Defined.

(** ** What the triangulation depends on *)

(** C10. Two calls of [calculate_distance] on objects with the same
    baseline, with records that hold all three keys and carry the same two
    angle values, return the same result, whatever the image centres, the
    object centres and the state of the pixel-to-angle ratio. *)
Theorem distance_depends_on_angles_and_baseline
    (format_float : R -> string)
    (left1 right1 left2 right2 : gmap string pyval) (vl vr : pyval)
    (self1 self2 : DistanceCalculation) :
  observation left1 vl -> observation right1 vr ->
  observation left2 vl -> observation right2 vr ->
  cameras_distance self1 = cameras_distance self2 ->
  fst (calculate_distance format_float left1 right1 self1)
  = fst (calculate_distance format_float left2 right2 self2).
Proof.
  intros H1 H2 H3 H4 Hb.
  rewrite (calculate_distance_angles_only format_float
             left1 right1 left2 right2 vl vr self1 H1 H2 H3 H4).
  apply baseline_only_calculate_distance; assumption.
Qed.

Lemma distance_depends_on_angles_and_baseline_witness :
  fst (calculate_distance sample_format reference_left reference_right
         reference_rig)
  = fst (calculate_distance sample_format
           (make_observation 320 436 (-10)) (make_observation 960 1080 8)
           (snd (update_pixel_to_angle_ratio 640 reference_rig))).
Proof.
  apply (distance_depends_on_angles_and_baseline sample_format
           reference_left reference_right
           (make_observation 320 436 (-10)) (make_observation 960 1080 8)
           (PyFloat (-10)) (PyFloat 8)).
  - apply reference_left_observation.
  - apply reference_right_observation.
  - apply make_observation_observation.
  - apply make_observation_observation.
  - reflexivity.
Defined.

(** * Further properties of the engine *)

(** ** Which angle pairs yield a distance *)


(** Past the degenerate test the result is one of three, none of which
    is the degenerate message. *)
Lemma triangulate_not_degenerate (case : string) (A B : R) self :
  0 < internal_angle_obj A B ->
  triangulate case A B self
  <> (Ret {| distance := None;
             details := "Invalid internal angles leading to degenerate triangle." |},
      self).
Proof.
  intros Hobj. unfold triangulate; unfold_monad.
  rewrite Rleb_false by lra.
  destruct (Reqb _ 0); [discriminate|].
  destruct (Rltb _ 0); discriminate.
Qed.









(** ** What the formula measures *)

(** X4. Put the cameras at [(-b/2, 0)] and [(b/2, 0)], [b] being the
    baseline, and the object at [(x, y)] with [y > 0], at distances [dL]
    and [dR] from the cameras.  When [A] and [B] are the interior angles of
    that triangle at the left and at the right camera, the distance
    returned is [sqrt (x^2 + y^2)]: the distance from the middle of the
    baseline to the object. *)
Theorem triangulate_median_distance
    (case : string) (A B x y dL dR : R) (self : DistanceCalculation) :
  0 < cameras_distance self -> 0 < y -> 0 < dL -> 0 < dR ->
  dL * dL = (x + cameras_distance self / 2) * (x + cameras_distance self / 2)
            + y * y ->
  dR * dR = (cameras_distance self / 2 - x) * (cameras_distance self / 2 - x)
            + y * y ->
  sin (radians A) = y / dL ->
  cos (radians A) = (x + cameras_distance self / 2) / dL ->
  sin (radians B) = y / dR ->
  cos (radians B) = (cameras_distance self / 2 - x) / dR ->
  0 < internal_angle_obj A B ->
  triangulate case A B self
  = (Ret {| distance := Some (sqrt (x * x + y * y));
            details := "Object is " +:+ case +:+ "." |}, self).
Proof.
  set (b := cameras_distance self).
  intros Hb Hy HdL HdR EL ER SA CA SB CB Hobj.
  assert (Hsum : sin (radians A + radians B) = y * b / (dL * dR)).
  { rewrite sin_plus, SA, CA, SB, CB. field. lra. }
  assert (Hden : denominator (radians (internal_angle_obj A B))
                 = (y * b / (dL * dR)) ^ 2).
  { rewrite denominator_sum, Hsum. reflexivity. }
  assert (Hq : 0 < y * b / (dL * dR)).
  { apply Rdiv_lt_0_compat; apply Rmult_lt_0_compat; assumption. }
  assert (Hdnz : denominator (radians (internal_angle_obj A B)) <> 0).
  { rewrite Hden. apply pow_nonzero. lra. }
  assert (Hv : value_inside_sqrt A B = 4 * (x * x + y * y) / (b * b)).
  { unfold value_inside_sqrt. rewrite Hden. unfold numerator.
    rewrite SA, SB.
    replace (2 * (((y / dL) ^ 2 + (y / dR) ^ 2) / (y * b / (dL * dR)) ^ 2) - 1)
      with ((2 * (dL * dL + dR * dR) - b * b) / (b * b))
      by (field; lra).
    rewrite EL, ER. field. lra. }
  assert (Hxy : 0 <= x * x + y * y) by nra.
  assert (Hv0 : 0 <= value_inside_sqrt A B).
  { rewrite Hv. apply Rmult_le_pos; [lra|].
    apply Rlt_le, Rinv_0_lt_compat. nra. }
  rewrite (triangulate_distance case A B self Hobj Hdnz Hv0).
  fold b.
  assert (E : sqrt (x * x + y * y) = b / 2 * sqrt (value_inside_sqrt A B));
    [|rewrite E; reflexivity].
  apply sqrt_lem_1.
  - assumption.
  - apply Rmult_le_pos; [lra | apply sqrt_pos].
  - replace (b / 2 * sqrt (value_inside_sqrt A B)
             * (b / 2 * sqrt (value_inside_sqrt A B)))
      with (b * b / 4
            * (sqrt (value_inside_sqrt A B) * sqrt (value_inside_sqrt A B)))
      by field.
    rewrite sqrt_sqrt by assumption. rewrite Hv. field. lra.
Qed.

Lemma radians_45 : radians 45 = PI / 4.
Proof. unfold radians. field. Qed.

Lemma triangulate_median_distance_witness :
  triangulate "between the cameras" 45 45 (init 90 2)
  = (Ret {| distance := Some (sqrt (0 * 0 + 1 * 1));
            details := "Object is between the cameras." |}, init 90 2).
Proof.
  assert (H2 : 0 < sqrt 2) by (apply sqrt_lt_R0; lra).
  assert (Hs : sqrt 2 * sqrt 2 = 2) by (apply sqrt_sqrt; lra).
  apply (triangulate_median_distance "between the cameras" 45 45 0 1
           (sqrt 2) (sqrt 2) (init 90 2));
    cbn [init cameras_distance]; rewrite ?radians_45, ?sin_PI4, ?cos_PI4;
    try lra.
  unfold internal_angle_obj. lra.
Defined.

(** ** Symmetry and scaling *)

Lemma classify_pure (vl vr : pyval) :
  exists o, forall self, classify vl vr self = (o, self).
Proof.
  unfold classify, py_and, py_lt0, py_gt0, py_abs; unfold_monad.
  destruct (num_of vl) as [l|], (num_of vr) as [r|];
    try (destruct (Rltb l 0); destruct (Rltb 0 l));
    try (destruct (Rltb 0 r); destruct (Rltb r 0));
    eexists; intros self; reflexivity.
Qed.

Ltac fixed_result :=
  left; eexists; split; cycle 1; [intros ?; reflexivity | reflexivity].

(** Every call either returns a fixed result without a distance, whatever
    the object, or is the triangulation of a fixed case and angle pair. *)
Lemma calculate_distance_normal_form
    (format_float : R -> string) (left_image right_image : gmap string pyval) :
  (exists res,
     distance res = None /\
     forall self,
       calculate_distance format_float left_image right_image self
       = (Ret res, self)) \/
  (exists case A B,
     forall self,
       calculate_distance format_float left_image right_image self
       = triangulate case A B self).
Proof.
  unfold calculate_distance, calculate_distance_body, getitem, try_except;
    unfold_monad.
  destruct (left_image !! "img_center_x");
    [|fixed_result].
  destruct (left_image !! "obj_center_x");
    [|fixed_result].
  destruct (left_image !! "angle_of_view_x") as [vl|];
    [|fixed_result].
  destruct (right_image !! "img_center_x");
    [|fixed_result].
  destruct (right_image !! "obj_center_x");
    [|fixed_result].
  destruct (right_image !! "angle_of_view_x") as [vr|];
    [|fixed_result].
  destruct (classify_pure vl vr) as [[[[[case A] B]|]|e] Hc].
  - right. exists case, A, B. intros self. rewrite Hc.
    destruct (triangulate_returns case A B self) as [res ->]. reflexivity.
  - left. eexists. split; cycle 1;
      [intros self; rewrite Hc; reflexivity | reflexivity].
  - left. eexists. split; cycle 1;
      [intros self; rewrite Hc; reflexivity | reflexivity].
Qed.

Lemma triangulate_scaled (case : string) (A B k : R) self1 self2 :
  cameras_distance self2 = k * cameras_distance self1 ->
  exists res1 res2,
    triangulate case A B self1 = (Ret res1, self1) /\
    triangulate case A B self2 = (Ret res2, self2) /\
    details res2 = details res1 /\
    distance res2 = (fun d => k * d) <$> distance res1.
Proof.
  intros Hk. unfold triangulate; unfold_monad.
  destruct (Rleb _ 0); [do 2 eexists; repeat split; reflexivity|].
  destruct (Reqb _ 0); [do 2 eexists; repeat split; reflexivity|].
  destruct (Rltb _ 0); [do 2 eexists; repeat split; reflexivity|].
  do 2 eexists. split; [reflexivity|]. split; [reflexivity|].
  split; [reflexivity|]. cbn. rewrite Hk. f_equal. field.
Qed.

(** X5. The distance is proportional to the baseline and nothing else of
    the object matters: on any two records, if the baseline of a second
    object is [k] times that of the first, both calls return, with the
    same details, and the second distance is [k] times the first one
    (absent when the first is absent). *)
Theorem distance_scales_with_baseline
    (format_float : R -> string) (left_image right_image : gmap string pyval)
    (k : R) (self1 self2 : DistanceCalculation) :
  cameras_distance self2 = k * cameras_distance self1 ->
  exists res1 res2,
    calculate_distance format_float left_image right_image self1
    = (Ret res1, self1) /\
    calculate_distance format_float left_image right_image self2
    = (Ret res2, self2) /\
    details res2 = details res1 /\
    distance res2 = (fun d => k * d) <$> distance res1.
Proof.
  intros Hk.
  destruct (calculate_distance_normal_form format_float left_image right_image)
    as [(res & Hnone & Hres) | (case & A & B & Htri)].
  - exists res, res. rewrite !Hres, Hnone. repeat split; reflexivity.
  - rewrite !Htri. apply triangulate_scaled; assumption.
Qed.

Lemma distance_scales_with_baseline_witness :
  exists res1 res2,
    calculate_distance sample_format reference_left reference_right
      reference_rig = (Ret res1, reference_rig) /\
    calculate_distance sample_format reference_left reference_right
      (init 55 (530 / 1000)) = (Ret res2, init 55 (530 / 1000)) /\
    details res2 = details res1 /\
    distance res2 = (fun d => 2 * d) <$> distance res1.
Proof.
  apply (distance_scales_with_baseline sample_format
           reference_left reference_right 2 reference_rig
           (init 55 (530 / 1000))).
  cbn. lra.
Defined.

Lemma internal_angle_obj_comm (A B : R) :
  internal_angle_obj A B = internal_angle_obj B A.
Proof. unfold internal_angle_obj. lra. Qed.

Lemma numerator_comm (a b : R) : numerator a b = numerator b a.
Proof. unfold numerator. lra. Qed.

Lemma triangulate_swapped (case case' : string) (A B : R) self :
  exists res res',
    triangulate case A B self = (Ret res, self) /\
    triangulate case' B A self = (Ret res', self) /\
    distance res = distance res'.
Proof.
  unfold triangulate; unfold_monad.
  rewrite (internal_angle_obj_comm B A), (numerator_comm (radians B)).
  destruct (Rleb _ 0); [do 2 eexists; repeat split; reflexivity|].
  destruct (Reqb _ 0); [do 2 eexists; repeat split; reflexivity|].
  destruct (Rltb _ 0); do 2 eexists; repeat split; reflexivity.
Qed.

(** X6. Mirror symmetry: reflecting the scene, which turns the angle pair
    [(l, r)] into [(-r, -l)], leaves the distance unchanged (the case
    names "left" and "right" are exchanged). *)
Theorem mirror_symmetry
    (format_float : R -> string)
    (left_image right_image left_image' right_image' : gmap string pyval)
    (vl vr vl' vr' : pyval) (l r : R) (self : DistanceCalculation) :
  observation left_image vl -> observation right_image vr ->
  observation left_image' vl' -> observation right_image' vr' ->
  num_of vl = Some l -> num_of vr = Some r ->
  num_of vl' = Some (- r) -> num_of vr' = Some (- l) ->
  exists res res',
    calculate_distance format_float left_image right_image self
    = (Ret res, self) /\
    calculate_distance format_float left_image' right_image' self
    = (Ret res', self) /\
    distance res = distance res'.
Proof.
  intros Hol Hor Hol' Hor' Hl Hr Hl' Hr'.
  destruct (Rtotal_order l 0) as [Ln | [Lz | Lp]];
    destruct (Rtotal_order r 0) as [Rn | [Rz | Rp]].
  6: { (* l = 0, r > 0 *)
    do 2 eexists.
    rewrite (calculate_distance_unclassified _ _ _ _ _ _ Hol Hor)
      by (apply classify_unknown with (l := l) (r := r); assumption || lra).
    rewrite (calculate_distance_unclassified _ _ _ _ _ _ Hol' Hor')
      by (apply classify_unknown with (l := - r) (r := - l);
          assumption || lra).
    repeat split; reflexivity. }
  all: try solve
    [ do 2 eexists;
      rewrite (calculate_distance_unclassified _ _ _ _ _ _ Hol Hor)
        by (apply classify_unknown with (l := l) (r := r); assumption || lra);
      rewrite (calculate_distance_unclassified _ _ _ _ _ _ Hol' Hor')
        by (apply classify_unknown with (l := - r) (r := - l);
            assumption || lra);
      repeat split; reflexivity ].
  - (* both negative: right case, mirrored into the left case *)
    rewrite (calculate_distance_classified _ _ _ _ _ _ _ _ _ Hol Hor
               (classify_right vl vr l r self Hl Hr Ln Rn)).
    assert (H1 : 0 < - r) by lra. assert (H2 : 0 < - l) by lra.
    rewrite (calculate_distance_classified _ _ _ _ _ _ _ _ _ Hol' Hor'
               (classify_left vl' vr' (- r) (- l) self Hl' Hr' H1 H2)).
    rewrite !Rabs_Ropp. apply triangulate_swapped.
  - (* between the cameras *)
    rewrite (calculate_distance_classified _ _ _ _ _ _ _ _ _ Hol Hor
               (classify_between vl vr l r self Hl Hr Ln Rp)).
    assert (H1 : - r < 0) by lra. assert (H2 : 0 < - l) by lra.
    rewrite (calculate_distance_classified _ _ _ _ _ _ _ _ _ Hol' Hor'
               (classify_between vl' vr' (- r) (- l) self Hl' Hr' H1 H2)).
    rewrite !Rabs_Ropp. apply triangulate_swapped.
  - (* both positive: left case, mirrored into the right case *)
    rewrite (calculate_distance_classified _ _ _ _ _ _ _ _ _ Hol Hor
               (classify_left vl vr l r self Hl Hr Lp Rp)).
    assert (H1 : - r < 0) by lra. assert (H2 : - l < 0) by lra.
    rewrite (calculate_distance_classified _ _ _ _ _ _ _ _ _ Hol' Hor'
               (classify_right vl' vr' (- r) (- l) self Hl' Hr' H1 H2)).
    rewrite !Rabs_Ropp. apply triangulate_swapped.
Qed.

Lemma mirror_symmetry_witness :
  exists res res',
    calculate_distance sample_format reference_left reference_right
      reference_rig = (Ret res, reference_rig) /\
    calculate_distance sample_format
      (make_observation 550 710 (Ropp 8)) (make_observation 550 350 (Ropp (-10)))
      reference_rig = (Ret res', reference_rig) /\
    distance res = distance res'.
Proof.
  apply (mirror_symmetry sample_format reference_left reference_right
           (make_observation 550 710 (Ropp 8))
           (make_observation 550 350 (Ropp (-10)))
           (PyFloat (-10)) (PyFloat 8) (PyFloat (Ropp 8)) (PyFloat (Ropp (-10)))
           (-10) 8 reference_rig).
  - apply reference_left_observation.
  - apply reference_right_observation.
  - apply make_observation_observation.
  - apply make_observation_observation.
  - reflexivity.
  - reflexivity.
  - reflexivity.
  - reflexivity.
Defined.

(** ** The order of the two images *)

(** X7. The order of the images matters: an object seen between the
    cameras ([l < 0 < r]) is reported as an unknown case, without a
    distance, when the two records are passed in the other order. *)
Theorem swapped_images_unknown
    (format_float : R -> string) (left_image right_image : gmap string pyval)
    (vl vr : pyval) (l r : R) (self : DistanceCalculation) :
  observation left_image vl -> observation right_image vr ->
  num_of vl = Some l -> num_of vr = Some r ->
  l < 0 -> 0 < r ->
  calculate_distance format_float right_image left_image self
  = (Ret {| distance := None;
            details := "Unknown case based on angles: left="
                       +:+ format_value format_float vr
                       +:+ ", right="
                       +:+ format_value format_float vl |}, self).
Proof.
  intros Hol Hor Hl Hr Hneg Hpos.
  apply (calculate_distance_unclassified _ _ _ _ _ _ Hor Hol).
  apply classify_unknown with (l := r) (r := l); assumption || lra.
Qed.

Lemma swapped_images_unknown_witness :
  calculate_distance sample_format reference_right reference_left reference_rig
  = (Ret {| distance := None;
            details := "Unknown case based on angles: left=<float>, right=<float>" |},
     reference_rig).
Proof.
  refine (swapped_images_unknown sample_format reference_left reference_right
    (PyFloat (-10)) (PyFloat 8) (-10) 8 reference_rig
    reference_left_observation reference_right_observation
    eq_refl eq_refl _ _); lra.
Defined.

(** X8. Exchanging the two records negates the disparity estimate: when
    the object centres differ, both orders return a distance and the two
    distances are opposite. *)
Theorem disparity_swap_negates
    (left_image right_image : gmap string pyval) (vl vr : pyval) (xl xr : R)
    (self : DistanceCalculation) :
  left_image !! "obj_center_x" = Some vl ->
  right_image !! "obj_center_x" = Some vr ->
  num_of vl = Some xl -> num_of vr = Some xr ->
  xl <> xr ->
  exists d,
    calculate_distance_using_disparity left_image right_image self
    = (Ret {| distance := Some d;
              details := "Distance calculated using disparity and focal length." |},
       self) /\
    calculate_distance_using_disparity right_image left_image self
    = (Ret {| distance := Some (- d);
              details := "Distance calculated using disparity and focal length." |},
       self).
Proof.
  intros Hl Hr Nl Nr Hne.
  exists (focal_length self * cameras_distance self / (xl - xr)).
  rewrite (calculate_distance_using_disparity_numbers _ _ _ _ _ _ _ Hl Hr Nl Nr).
  rewrite (calculate_distance_using_disparity_numbers _ _ _ _ _ _ _ Hr Hl Nr Nl).
  rewrite !Reqb_false by lra.
  split; [reflexivity|].
  replace (focal_length self * cameras_distance self / (xr - xl))
    with (- (focal_length self * cameras_distance self / (xl - xr)))
    by (field; lra).
  reflexivity.
Qed.

Lemma disparity_swap_negates_witness :
  exists d,
    calculate_distance_using_disparity reference_left reference_right
      reference_rig
    = (Ret {| distance := Some d;
              details := "Distance calculated using disparity and focal length." |},
       reference_rig) /\
    calculate_distance_using_disparity reference_right reference_left
      reference_rig
    = (Ret {| distance := Some (- d);
              details := "Distance calculated using disparity and focal length." |},
       reference_rig).
Proof.
  assert (Hl : reference_left !! "obj_center_x" = Some (PyInt 750)).
  { unfold reference_left, make_observation.
    rewrite lookup_insert_ne by discriminate. apply lookup_insert_eq. }
  assert (Hr : reference_right !! "obj_center_x" = Some (PyInt 390)).
  { unfold reference_right, make_observation.
    rewrite lookup_insert_ne by discriminate. apply lookup_insert_eq. }
  refine (disparity_swap_negates reference_left reference_right
            (PyInt 750) (PyInt 390) (IZR 750) (IZR 390) reference_rig
            Hl Hr eq_refl eq_refl _).
  lra.
Defined.

(** ** Sequences of calls *)

Lemma run_calls_app (format_float : R -> string) (cs cs' : list call) self :
  run_calls format_float (cs ++ cs') self
  = run_calls format_float cs' (run_calls format_float cs self).
Proof.
  revert self. induction cs as [| c cs IH]; intros self; [reflexivity|].
  cbn [app run_calls]. apply IH.
Qed.

Lemma disparity_reads (left_image right_image : gmap string pyval) self1 self2 :
  focal_length self1 = focal_length self2 ->
  cameras_distance self1 = cameras_distance self2 ->
  fst (calculate_distance_using_disparity left_image right_image self1)
  = fst (calculate_distance_using_disparity left_image right_image self2).
Proof.
  intros Hf Hb.
  unfold calculate_distance_using_disparity,
    calculate_distance_using_disparity_body, getitem, py_sub, try_except;
    unfold_monad.
  destruct (left_image !! "obj_center_x") as [vl|]; [|reflexivity].
  destruct (right_image !! "obj_center_x") as [vr|]; [|reflexivity].
  destruct (num_of vl) as [xl|], (num_of vr) as [xr|]; try reflexivity.
  destruct (Reqb (xl - xr) 0); [reflexivity|].
  cbn. rewrite Hf, Hb. reflexivity.
Qed.

(** X9. Whatever calls were made on the object before, returning or
    raising, both distance methods give on the same records the results
    they would have given on the fresh object. *)
Theorem results_unaffected_by_calls
    (format_float : R -> string) (left_image right_image : gmap string pyval)
    (cs : list call) (self : DistanceCalculation) :
  fst (calculate_distance format_float left_image right_image
         (run_calls format_float cs self))
  = fst (calculate_distance format_float left_image right_image self) /\
  fst (calculate_distance_using_disparity left_image right_image
         (run_calls format_float cs self))
  = fst (calculate_distance_using_disparity left_image right_image self).
Proof.
  destruct (run_calls_frame format_float cs self) as (_ & Hb & Hf). split.
  - apply baseline_only_calculate_distance. assumption.
  - apply disparity_reads; assumption.
Qed.

(** X10. After any sequence of calls the ratio is the one set by the last
    update with a non-zero width: such an update at the end of a sequence
    sets [fov_horizontal / w], and any other call at the end (a distance
    method, or an update with width 0, which raises) leaves the ratio of
    the sequence before it. *)
Theorem ratio_set_by_last_successful_update
    (format_float : R -> string) (cs : list call)
    (self : DistanceCalculation) :
  (forall w : Z,
     w <> 0%Z ->
     pixel_to_angle_ratio_x
       (run_calls format_float (cs ++ [UpdatePixelToAngleRatio w]) self)
     = Some (fov_horizontal self / IZR w)) /\
  (forall c : call,
     (forall w, c = UpdatePixelToAngleRatio w -> w = 0%Z) ->
     pixel_to_angle_ratio_x (run_calls format_float (cs ++ [c]) self)
     = pixel_to_angle_ratio_x (run_calls format_float cs self)).
Proof.
  split.
  - intros w Hw. rewrite run_calls_app. cbn [run_calls run_call].
    rewrite update_pixel_to_angle_ratio_nonzero by assumption.
    cbn. destruct (run_calls_frame format_float cs self) as (-> & _ & _).
    reflexivity.
  - intros c Hc. rewrite run_calls_app. cbn [run_calls].
    destruct c as [w | l r | l r]; cbn [run_call].
    + rewrite (Hc w eq_refl), update_pixel_to_angle_ratio_zero. reflexivity.
    + rewrite read_only_calculate_distance. reflexivity.
    + rewrite read_only_calculate_distance_using_disparity. reflexivity.
Qed.

Lemma ratio_set_by_last_successful_update_witness :
  pixel_to_angle_ratio_x
    (run_calls sample_format
       ([UpdatePixelToAngleRatio 320;
         CalculateDistance reference_left reference_right]
        ++ [UpdatePixelToAngleRatio 640]) reference_rig)
  = Some (fov_horizontal reference_rig / IZR 640) /\
  pixel_to_angle_ratio_x
    (run_calls sample_format
       ([UpdatePixelToAngleRatio 320] ++ [UpdatePixelToAngleRatio 0])
       reference_rig)
  = pixel_to_angle_ratio_x
      (run_calls sample_format [UpdatePixelToAngleRatio 320] reference_rig).
Proof.
  split.
  - refine (proj1 (ratio_set_by_last_successful_update sample_format
      [UpdatePixelToAngleRatio 320;
       CalculateDistance reference_left reference_right] reference_rig)
      640%Z _).
    discriminate.
  - refine (proj2 (ratio_set_by_last_successful_update sample_format
      [UpdatePixelToAngleRatio 320] reference_rig)
      (UpdatePixelToAngleRatio 0) _).
    intros w [= <-]. reflexivity.
Defined.

(** ** The focal length *)

Lemma radians_half_range (f : R) :
  0 < f -> f < 180 -> 0 < radians (f / 2) < PI / 2.
Proof.
  intros H0 H1. pose proof PI_RGT_0 as Hpi. unfold radians. split.
  - apply Rmult_lt_0_compat; lra.
  - replace (PI / 2) with (90 * (PI / 180)) by field.
    apply Rmult_lt_compat_r; lra.
Qed.

(** X11. For a field of view strictly between 0 and 180 degrees the focal
    length is positive, and a wider field of view gives a strictly
    shorter focal length. *)
Theorem focal_length_positive_decreasing (f1 f2 b1 b2 : R) :
  0 < f1 -> f1 < f2 -> f2 < 180 ->
  0 < focal_length (init f2 b2) /\
  focal_length (init f2 b2) < focal_length (init f1 b1).
Proof.
  intros H0 H12 H180. pose proof PI_RGT_0 as Hpi.
  destruct (radians_half_range f1) as [A1 B1]; try lra.
  destruct (radians_half_range f2) as [A2 B2]; try lra.
  assert (Hlt : radians (f1 / 2) < radians (f2 / 2)).
  { unfold radians. apply Rmult_lt_compat_r; lra. }
  pose proof (tan_gt_0 _ A1 B1) as T1.
  assert (T12 : tan (radians (f1 / 2)) < tan (radians (f2 / 2)))
    by (apply tan_increasing; lra).
  cbn [init focal_length].
  set (t1 := tan (radians (f1 / 2))) in *.
  set (t2 := tan (radians (f2 / 2))) in *.
  split.
  - apply Rdiv_lt_0_compat; lra.
  - unfold Rdiv. apply Rmult_lt_compat_l; [lra|].
    apply Rinv_lt_contravar; nra.
Qed.

Lemma focal_length_positive_decreasing_witness :
  0 < focal_length (init 90 1) /\
  focal_length (init 90 1) < focal_length (init 55 (265 / 1000)).
Proof.
  apply (focal_length_positive_decreasing 55 90 (265 / 1000) 1); lra.
Defined.

(** ** Malformed records *)

Lemma calculate_distance_raised
    (format_float : R -> string) (left_image right_image : gmap string pyval)
    (e : exn) self :
  calculate_distance_body format_float left_image right_image self
  = (Raise e, self) ->
  calculate_distance format_float left_image right_image self
  = (Ret {| distance := None;
            details := "Error during distance calculation: " +:+ str_exn e |},
     self).
Proof. intros H. unfold calculate_distance, try_except. rewrite H. reflexivity. Qed.

(** X12. [calculate_distance] needs all three keys of both records, the
    two it never uses included: when a key is missing the distance is
    absent and the details name, between quotes, the first missing key in
    reading order (the left record first; within a record the image
    centre, the object centre, the angle). *)
Theorem missing_key_reported
    (format_float : R -> string) (left_image right_image : gmap string pyval)
    (pre post : list string) (k : string) (self : DistanceCalculation) :
  required_keys = pre ++ k :: post ->
  ((forall k', k' ∈ pre -> is_Some (left_image !! k')) ->
   left_image !! k = None ->
   calculate_distance format_float left_image right_image self
   = (Ret {| distance := None;
             details := "Error during distance calculation: '" +:+ k +:+ "'" |},
      self)) /\
  ((forall k', k' ∈ required_keys -> is_Some (left_image !! k')) ->
   (forall k', k' ∈ pre -> is_Some (right_image !! k')) ->
   right_image !! k = None ->
   calculate_distance format_float left_image right_image self
   = (Ret {| distance := None;
             details := "Error during distance calculation: '" +:+ k +:+ "'" |},
      self)).
Proof.
  intros Hkeys. split.
  - intros Hpre Hk.
    apply (calculate_distance_raised _ _ _ (KeyError k)).
    unfold calculate_distance_body; unfold_monad.
    destruct pre as [| a [| b [| c pre]]]; unfold required_keys in Hkeys;
      simplify_eq/=.
    + rewrite (getitem_None _ _ _ Hk). reflexivity.
    + destruct (Hpre "img_center_x"%string) as [v1 H1]; [set_solver|].
      rewrite (getitem_Some _ _ _ _ H1), (getitem_None _ _ _ Hk). reflexivity.
    + destruct (Hpre "img_center_x"%string) as [v1 H1]; [set_solver|].
      destruct (Hpre "obj_center_x"%string) as [v2 H2]; [set_solver|].
      rewrite (getitem_Some _ _ _ _ H1), (getitem_Some _ _ _ _ H2),
        (getitem_None _ _ _ Hk). reflexivity.
    + destruct pre; discriminate.
  - intros Hleft Hpre Hk.
    apply (calculate_distance_raised _ _ _ (KeyError k)).
    unfold calculate_distance_body; unfold_monad.
    destruct (Hleft "img_center_x"%string) as [l1 L1];
      [unfold required_keys; set_solver|].
    destruct (Hleft "obj_center_x"%string) as [l2 L2];
      [unfold required_keys; set_solver|].
    destruct (Hleft "angle_of_view_x"%string) as [l3 L3];
      [unfold required_keys; set_solver|].
    rewrite (getitem_Some _ _ _ _ L1), (getitem_Some _ _ _ _ L2),
      (getitem_Some _ _ _ _ L3).
    destruct pre as [| a [| b [| c pre]]]; unfold required_keys in Hkeys;
      simplify_eq/=.
    + rewrite (getitem_None _ _ _ Hk). reflexivity.
    + destruct (Hpre "img_center_x"%string) as [v1 H1]; [set_solver|].
      rewrite (getitem_Some _ _ _ _ H1), (getitem_None _ _ _ Hk). reflexivity.
    + destruct (Hpre "img_center_x"%string) as [v1 H1]; [set_solver|].
      destruct (Hpre "obj_center_x"%string) as [v2 H2]; [set_solver|].
      rewrite (getitem_Some _ _ _ _ H1), (getitem_Some _ _ _ _ H2),
        (getitem_None _ _ _ Hk). reflexivity.
    + destruct pre; discriminate.
Qed.

Lemma missing_key_reported_witness :
  calculate_distance sample_format
    (<["obj_center_x" := PyInt 750]>
       (<["angle_of_view_x" := PyFloat (-10)]> ∅))
    reference_right reference_rig
  = (Ret {| distance := None;
            details := "Error during distance calculation: 'img_center_x'" |},
     reference_rig) /\
  calculate_distance sample_format reference_left
    (<["img_center_x" := PyInt 550]> ∅) reference_rig
  = (Ret {| distance := None;
            details := "Error during distance calculation: 'obj_center_x'" |},
     reference_rig).
Proof.
  split.
  - refine (proj1 (missing_key_reported sample_format
      (<["obj_center_x" := PyInt 750]>
         (<["angle_of_view_x" := PyFloat (-10)]> ∅))
      reference_right [] ["obj_center_x"; "angle_of_view_x"]%string
      "img_center_x" reference_rig eq_refl) _ _).
    + intros k' Hk'. inversion Hk'.
    + reflexivity.
  - refine (proj2 (missing_key_reported sample_format reference_left
      (<["img_center_x" := PyInt 550]> ∅)
      ["img_center_x"]%string ["angle_of_view_x"]%string
      "obj_center_x" reference_rig eq_refl) _ _ _).
    + intros k' Hk'. unfold required_keys in Hk'.
      destruct reference_left_observation as (H1 & H2 & H3).
      apply elem_of_cons in Hk' as [-> | Hk']; [exact H1|].
      apply elem_of_cons in Hk' as [-> | Hk']; [exact H2|].
      apply elem_of_cons in Hk' as [-> | Hk']; [eexists; exact H3|].
      inversion Hk'.
    + intros k' Hk'. apply elem_of_cons in Hk' as [-> | Hk'].
      * eexists. apply lookup_insert_eq.
      * inversion Hk'.
    + reflexivity.
Defined.

(** X13. An angle that is not a number: a non-numeric left angle always
    ends in the error result of the failed comparison [<]; a non-numeric
    right angle ends in the error result of the failed comparison [>]
    when the left angle is a non-zero number, but when the left angle is
    exactly 0 the right value is never compared and the result is the
    unknown-case message rendering both values. *)
Theorem non_numeric_angle
    (format_float : R -> string) (left_image right_image : gmap string pyval)
    (vl vr : pyval) (self : DistanceCalculation) :
  observation left_image vl -> observation right_image vr ->
  (num_of vl = None ->
   calculate_distance format_float left_image right_image self
   = (Ret {| distance := None;
             details := "Error during distance calculation: "
                        +:+ "'<' not supported between instances of '"
                        +:+ type_name vl +:+ "' and 'int'" |}, self)) /\
  (forall l : R,
     num_of vl = Some l -> num_of vr = None ->
     (l <> 0 ->
      calculate_distance format_float left_image right_image self
      = (Ret {| distance := None;
                details := "Error during distance calculation: "
                           +:+ "'>' not supported between instances of '"
                           +:+ type_name vr +:+ "' and 'int'" |}, self)) /\
     (l = 0 ->
      calculate_distance format_float left_image right_image self
      = (Ret {| distance := None;
                details := "Unknown case based on angles: left="
                           +:+ format_value format_float vl
                           +:+ ", right="
                           +:+ format_value format_float vr |}, self))).
Proof.
  intros Hol Hor. split.
  - intros Hn. unfold calculate_distance, try_except.
    rewrite (calculate_distance_body_observation _ _ _ _ _ _ Hol Hor).
    unfold classify, py_and, py_lt0; unfold_monad. rewrite Hn. reflexivity.
  - intros l Hl Hn. split.
    + intros Hnz. unfold calculate_distance, try_except.
      rewrite (calculate_distance_body_observation _ _ _ _ _ _ Hol Hor).
      unfold classify, py_and, py_lt0, py_gt0; unfold_monad. rewrite Hl, Hn.
      destruct (Rtotal_order l 0) as [Ln | [Lz | Lp]]; [| contradiction |].
      * rewrite (Rltb_true l 0) by assumption. reflexivity.
      * rewrite (Rltb_false l 0), (Rltb_true 0 l) by lra. reflexivity.
    + intros ->. unfold calculate_distance, try_except.
      rewrite (calculate_distance_body_observation _ _ _ _ _ _ Hol Hor).
      unfold classify, py_and, py_lt0, py_gt0; unfold_monad. rewrite Hl.
      rewrite (Rltb_false 0 0) by lra. reflexivity.
Qed.

Lemma non_numeric_angle_witness :
  calculate_distance sample_format
    (<["img_center_x" := PyInt 550]>
       (<["obj_center_x" := PyInt 550]>
          (<["angle_of_view_x" := PyInt 0]> ∅)))
    (<["img_center_x" := PyInt 550]>
       (<["obj_center_x" := PyInt 390]>
          (<["angle_of_view_x" := PyNone]> ∅)))
    reference_rig
  = (Ret {| distance := None;
            details := "Unknown case based on angles: left=0, right=None" |},
     reference_rig) /\
  calculate_distance sample_format reference_left
    (<["img_center_x" := PyInt 550]>
       (<["obj_center_x" := PyInt 390]>
          (<["angle_of_view_x" := PyNone]> ∅)))
    reference_rig
  = (Ret {| distance := None;
            details := "Error during distance calculation: '>' not supported between instances of 'NoneType' and 'int'" |},
     reference_rig).
Proof.
  assert (Hnone : observation
            (<["img_center_x" := PyInt 550]>
               (<["obj_center_x" := PyInt 390]>
                  (<["angle_of_view_x" := PyNone]> ∅))) PyNone).
  { split; [|split].
    - eexists. apply lookup_insert_eq.
    - eexists. rewrite lookup_insert_ne by discriminate. apply lookup_insert_eq.
    - do 2 (rewrite lookup_insert_ne by discriminate). apply lookup_insert_eq. }
  assert (Hzero : observation
            (<["img_center_x" := PyInt 550]>
               (<["obj_center_x" := PyInt 550]>
                  (<["angle_of_view_x" := PyInt 0]> ∅))) (PyInt 0)).
  { split; [|split].
    - eexists. apply lookup_insert_eq.
    - eexists. rewrite lookup_insert_ne by discriminate. apply lookup_insert_eq.
    - do 2 (rewrite lookup_insert_ne by discriminate). apply lookup_insert_eq. }
  split.
  - exact (proj2 (proj2 (non_numeric_angle sample_format _ _ (PyInt 0) PyNone
             reference_rig Hzero Hnone) 0 eq_refl eq_refl) eq_refl).
  - refine (proj1 (proj2 (non_numeric_angle sample_format _ _
             (PyFloat (-10)) PyNone reference_rig
             reference_left_observation Hnone) (-10) eq_refl eq_refl) _).
    lra.
Defined.

(** X14. The disparity method reads the object centres only: a record
    without [obj_center_x] gives the error result naming that key (the
    left record is read first), and object centres that cannot be
    subtracted give the error result of the failed subtraction. *)
Theorem disparity_errors
    (left_image right_image : gmap string pyval) (self : DistanceCalculation) :
  (left_image !! "obj_center_x" = None ->
   calculate_distance_using_disparity left_image right_image self
   = (Ret {| distance := None;
             details := "Error calculating distance using disparity: 'obj_center_x'" |},
      self)) /\
  (is_Some (left_image !! "obj_center_x") ->
   right_image !! "obj_center_x" = None ->
   calculate_distance_using_disparity left_image right_image self
   = (Ret {| distance := None;
             details := "Error calculating distance using disparity: 'obj_center_x'" |},
      self)) /\
  (forall vl vr,
     left_image !! "obj_center_x" = Some vl ->
     right_image !! "obj_center_x" = Some vr ->
     num_of vl = None \/ num_of vr = None ->
     calculate_distance_using_disparity left_image right_image self
     = (Ret {| distance := None;
               details := "Error calculating distance using disparity: "
                          +:+ "unsupported operand type(s) for -: '"
                          +:+ type_name vl +:+ "' and '"
                          +:+ type_name vr +:+ "'" |},
        self)).
Proof.
  unfold calculate_distance_using_disparity,
    calculate_distance_using_disparity_body, try_except; unfold_monad.
  split; [|split].
  - intros Hl. rewrite (getitem_None _ _ _ Hl). reflexivity.
  - intros [vl Hl] Hr.
    rewrite (getitem_Some _ _ _ _ Hl), (getitem_None _ _ _ Hr). reflexivity.
  - intros vl vr Hl Hr Hn.
    rewrite (getitem_Some _ _ _ _ Hl), (getitem_Some _ _ _ _ Hr).
    unfold py_sub.
    destruct (num_of vl) as [xl|] eqn:El, (num_of vr) as [xr|] eqn:Er;
      try reflexivity.
    destruct Hn; discriminate.
Qed.

Lemma disparity_errors_witness :
  calculate_distance_using_disparity
    (<["angle_of_view_x" := PyFloat (-10)]> ∅) reference_right reference_rig
  = (Ret {| distance := None;
            details := "Error calculating distance using disparity: 'obj_center_x'" |},
     reference_rig) /\
  calculate_distance_using_disparity
    (<["obj_center_x" := PyStr "750"]> ∅)
    (<["obj_center_x" := PyInt 390]> ∅) reference_rig
  = (Ret {| distance := None;
            details := "Error calculating distance using disparity: unsupported operand type(s) for -: 'str' and 'int'" |},
     reference_rig).
Proof.
  split.
  - refine (proj1 (disparity_errors _ reference_right reference_rig) _).
    reflexivity.
  - refine (proj2 (proj2 (disparity_errors
             (<["obj_center_x" := PyStr "750"]> ∅)
             (<["obj_center_x" := PyInt 390]> ∅) reference_rig))
             (PyStr "750") (PyInt 390) _ _ _).
    + apply lookup_insert_eq.
    + apply lookup_insert_eq.
    + left. reflexivity.
Defined.

(** * The caller's geometry *)

Lemma image_params_nonzero (w : Z) (bbox : bounding_box) self :
  w <> 0%Z ->
  image_params w bbox self
  = (Ret (make_observation (img_center_x w) (obj_center_x bbox)
            (IZR (img_center_x w - obj_center_x bbox) * fov_horizontal self
             / IZR w)), self).
Proof.
  intros Hw. unfold image_params, angle_of_view_x; unfold_monad.
  destruct (decide (w = 0%Z)); [contradiction | reflexivity].
Qed.

(** The sign of [k * fov / w] is the sign of the integer [k]. *)
Lemma scaled_offset_sign (k w : Z) (fov : R) :
  (0 < w)%Z -> 0 < fov ->
  (0 < IZR k * fov / IZR w <-> (0 < k)%Z) /\
  (IZR k * fov / IZR w < 0 <-> (k < 0)%Z).
Proof.
  intros Hw Hf. apply IZR_lt in Hw.
  assert (Hq : 0 < fov / IZR w) by (apply Rdiv_lt_0_compat; assumption).
  replace (IZR k * fov / IZR w) with (IZR k * (fov / IZR w))
    by (unfold Rdiv; ring).
  split; split; intros H.
  - apply lt_IZR. nra.
  - apply IZR_lt in H. nra.
  - apply lt_IZR. nra.
  - apply IZR_lt in H. nra.
Qed.


Lemma scaled_offset_bound (k w : Z) (fov : R) :
  (0 < w)%Z -> 0 < fov -> (- w <= k <= w)%Z ->
  Rabs (IZR k * fov / IZR w) <= fov.
Proof.
  intros Hw Hf [Hlo Hhi].
  apply IZR_lt in Hw. apply IZR_le in Hlo, Hhi. rewrite opp_IZR in Hlo.
  assert (Hq : 0 < fov / IZR w) by (apply Rdiv_lt_0_compat; assumption).
  assert (Hone : IZR w * (fov / IZR w) = fov) by (field; lra).
  replace (IZR k * fov / IZR w) with (IZR k * (fov / IZR w))
    by (unfold Rdiv; ring).
  apply Rabs_le. split; nra.
Qed.

Lemma centers_in_range (w : Z) (bbox : bounding_box) :
  (0 < w)%Z -> (0 <= xmin bbox)%Z -> (xmin bbox <= xmax bbox)%Z ->
  (xmax bbox <= w)%Z ->
  (xmin bbox <= obj_center_x bbox <= xmax bbox)%Z /\
  (- w <= img_center_x w - obj_center_x bbox <= w)%Z.
Proof.
  intros Hw H0 Hle Hmax. unfold obj_center_x, img_center_x.
  Z.div_mod_to_equations. lia.
Qed.

(** X15. The record built for one image: for a positive width and a
    positive field of view the angle is positive exactly when the object
    centre is left of the image centre and negative exactly when it is
    right of it; the object centre lies within the box; and for a box
    inside the image the magnitude of the angle is at most the field of
    view. *)
Theorem image_params_angle
    (w : Z) (bbox : bounding_box) (self : DistanceCalculation) :
  (0 < w)%Z -> 0 < fov_horizontal self ->
  exists angle,
    image_params w bbox self
    = (Ret (make_observation (img_center_x w) (obj_center_x bbox) angle),
       self) /\
    (0 < angle <-> (obj_center_x bbox < img_center_x w)%Z) /\
    (angle < 0 <-> (img_center_x w < obj_center_x bbox)%Z) /\
    ((0 <= xmin bbox)%Z -> (xmin bbox <= xmax bbox)%Z ->
     (xmax bbox <= w)%Z ->
     (xmin bbox <= obj_center_x bbox <= xmax bbox)%Z /\
     Rabs angle <= fov_horizontal self).
Proof.
  intros Hw Hf. eexists. split; [apply image_params_nonzero; lia|].
  destruct (scaled_offset_sign (img_center_x w - obj_center_x bbox) w
              (fov_horizontal self) Hw Hf) as [Hpos Hneg].
  split; [|split].
  - rewrite Hpos. lia.
  - rewrite Hneg. lia.
  - intros H0 Hle Hmax.
    destruct (centers_in_range w bbox Hw H0 Hle Hmax) as [Hc Hk].
    split; [exact Hc|]. apply scaled_offset_bound; assumption.
Qed.

Lemma image_params_angle_witness :
  exists angle,
    image_params 640 (mkBoundingBox 400 100 500 300 (9 / 10) 0) reference_rig
    = (Ret (make_observation (img_center_x 640)
              (obj_center_x (mkBoundingBox 400 100 500 300 (9 / 10) 0)) angle),
       reference_rig) /\
    angle < 0 /\ Rabs angle <= 55.
Proof.
  assert (Hw : (0 < 640)%Z) by reflexivity.
  assert (Hf : 0 < fov_horizontal reference_rig) by (cbn; lra).
  destruct (image_params_angle 640
              (mkBoundingBox 400 100 500 300 (9 / 10) 0) reference_rig Hw Hf)
    as (angle & Hret & _ & Hneg & Hin).
  exists angle. split; [exact Hret|]. split.
  - apply Hneg. reflexivity.
  - apply Hin; cbn; discriminate.
Defined.

(** ** The caller and the engine together *)







(** ** The report *)

(** X18. When the two object centres coincide the disparity method
    returns no distance, the first line of the report cannot be formatted,
    and the handler ends with its error message: the triangulation result,
    whatever it is, is never reported.  When they differ the report starts
    with the disparity estimate. *)
Theorem zero_disparity_aborts_report
    (format_2f : R -> string) (left_image right_image : gmap string pyval)
    (vl vr : pyval) (xl xr : R) (self : DistanceCalculation)
    (distance_info : result) :
  left_image !! "obj_center_x" = Some vl ->
  right_image !! "obj_center_x" = Some vr ->
  num_of vl = Some xl -> num_of vr = Some xr ->
  exists distance_info_disparity,
    calculate_distance_using_disparity left_image right_image self
    = (Ret distance_info_disparity, self) /\
    (xl = xr ->
     report_guarded format_2f distance_info distance_info_disparity
     = [ LogError "Error during image processing: unsupported format string passed to NoneType.__format__";
         Print "Error during image processing: unsupported format string passed to NoneType.__format__" ]) /\
    (xl <> xr ->
     exists rest,
       report_guarded format_2f distance_info distance_info_disparity
       = Print ("Distance (using disparity): "
                +:+ format_2f (focal_length self * cameras_distance self
                               / (xl - xr))
                +:+ " meters") :: rest).
Proof.
  intros Hl Hr Nl Nr.
  rewrite (calculate_distance_using_disparity_numbers _ _ _ _ _ _ _ Hl Hr Nl Nr).
  eexists. split; [reflexivity|]. split.
  - intros ->. rewrite Reqb_true by lra. reflexivity.
  - intros Hne. rewrite Reqb_false by lra.
    unfold report_guarded, report_distances. cbn.
    eexists. reflexivity.
Qed.

Lemma zero_disparity_aborts_report_witness :
  exists distance_info_disparity,
    calculate_distance_using_disparity
      (make_observation 320 400 (-10)) (make_observation 640 400 8)
      reference_rig
    = (Ret distance_info_disparity, reference_rig) /\
    report_guarded (fun _ => "0.00"%string)
      {| distance := Some 1; details := "Object is between the cameras." |}
      distance_info_disparity
    = [ LogError "Error during image processing: unsupported format string passed to NoneType.__format__";
        Print "Error during image processing: unsupported format string passed to NoneType.__format__" ].
Proof.
  assert (Hl : make_observation 320 400 (-10) !! "obj_center_x"
               = Some (PyInt 400)).
  { unfold make_observation.
    rewrite lookup_insert_ne by discriminate. apply lookup_insert_eq. }
  assert (Hr : make_observation 640 400 8 !! "obj_center_x"
               = Some (PyInt 400)).
  { unfold make_observation.
    rewrite lookup_insert_ne by discriminate. apply lookup_insert_eq. }
  destruct (zero_disparity_aborts_report (fun _ => "0.00"%string)
              (make_observation 320 400 (-10)) (make_observation 640 400 8)
              (PyInt 400) (PyInt 400) (IZR 400) (IZR 400) reference_rig
              {| distance := Some 1;
                 details := "Object is between the cameras." |}
              Hl Hr eq_refl eq_refl) as (dd & Hdd & Hzero & _).
  exists dd. split; [exact Hdd | apply Hzero; reflexivity].
Defined.
